(** * kholst: the Slang shader-compilation adapter and the window application

    A shallow embedding of [src/render/shader/compiler/compiler.{h,cpp}] and
    of [src/main.cpp].  The program is sequential glue over two native
    libraries (the Slang compiler and a Vulkan abstraction layer), so the model
    is a state monad over the C++ object together with the chronological
    history of the calls made into the outside world.  What the outside world
    answers is not decided by this repository: every answer comes from a
    [World], an arbitrary function of the history so far, and the theorems
    hold for every [World]. *)

From Stdlib Require Import ZArith NArith List String Ascii Bool Lia.
From Stdlib Require Import DecimalString.
Import ListNotations.
Local Open Scope list_scope.

Set Implicit Arguments.

(** ** Data *)

(** A COM pointer ([Slang::ComPtr<T>], [T*]) or an LVK holder: an opaque
    address, [0] for null / empty. *)
Definition ptr := N.
Definition nullptr : ptr := 0%N.
Definition is_null (p : ptr) : bool := N.eqb p nullptr.

(** [SlangResult] is a signed integer; [SLANG_FAILED(r)] is [r < 0]. *)
Definition SlangResult := Z.
Definition SLANG_FAILED (r : SlangResult) : bool := (r <? 0)%Z.

Inductive SlangCompileTarget :=
| SLANG_SPIRV
| SLANG_TARGET_OTHER (code : Z).

Inductive SlangStage :=
| SLANG_STAGE_NONE
| SLANG_STAGE_VERTEX
| SLANG_STAGE_HULL
| SLANG_STAGE_DOMAIN
| SLANG_STAGE_GEOMETRY
| SLANG_STAGE_FRAGMENT
| SLANG_STAGE_COMPUTE
| SLANG_STAGE_OTHER (code : Z).

(** An [IBlob] handed back through [writeRef()]: null, or its buffer.  A
    diagnostics blob is read as [std::string(ptr, size)], a code blob as raw
    bytes. *)
Definition DiagBlob := option string.
Definition CodeBlob := option (list Byte.byte).

Definition blob_is_null (b : CodeBlob) : bool :=
  match b with Some _ => false | None => true end.

Definition getBufferPointer (b : CodeBlob) : list Byte.byte :=
  match b with Some data => data | None => [] end.

Definition getBufferSize (b : CodeBlob) : nat :=
  List.length (getBufferPointer b).

(** [std::vector<uint32_t>]: each element in [0, 2^32). *)
Definition uint32_t := Z.
Definition vector := list uint32_t.

(** What the reflection dump reads from a [slang::ProgramLayout]. *)
Record ProgramLayout := {
  layoutEntryPoints : list (string * SlangStage);
  layoutParameters : list (string * option string)
}.

(** Floating-point values are kept symbolic: the program only forwards them to
    glm and to the GPU.  [FOfDouble sample] is [(float)glfwGetTime()], the
    [double] read from the clock standing as an opaque sample. *)
Inductive Float :=
| FConst (literal : string)
| FOfInt (i : Z)
| FOfDouble (sample : Z)
| FDiv (a b : Float).

Inductive Mat4 :=
| MIdentity (diag : Float)
| MTranslate (m : Mat4) (x y z : Float)
| MRotate (m : Mat4) (angle : Float) (x y z : Float)
| MPerspective (fovy aspect near far : Float)
| MMul (a b : Mat4).

Inductive LvkStage := Stage_Vert | Stage_Frag.
Inductive PolygonMode := PolygonMode_Fill | PolygonMode_Line.

Record RenderPipelineDesc := {
  smVert : ptr;
  smFrag : ptr;
  specConstant0 : option Z;
  cullBack : bool;
  polygonMode : PolygonMode
}.

(** ** Calls into the outside world

    One constructor per call the program makes, with the arguments passed and
    the answer received. *)
Inductive Event :=
(* Slang *)
| EvCreateGlobalSession (res : SlangResult * ptr)
| EvFindProfile (globalSession : ptr) (name : string) (res : Z)
| EvCreateSession (globalSession : ptr) (target : SlangCompileTarget)
    (profile : Z) (res : SlangResult * ptr)
| EvLoadModule (session : ptr) (path : string) (res : ptr * DiagBlob)
| EvFindAndCheckEntryPoint (module : ptr) (name : string) (stage : SlangStage)
    (res : ptr * DiagBlob)
| EvCreateCompositeComponentType (session : ptr) (components : list ptr)
    (res : SlangResult * ptr * DiagBlob)
| EvLink (composed : ptr) (res : SlangResult * ptr * DiagBlob)
| EvGetLayout (linked : ptr) (res : option ProgramLayout)
| EvGetEntryPointCode (linked : ptr) (entryPointIndex targetIndex : Z)
    (res : SlangResult * CodeBlob * DiagBlob)
(* the C++ runtime *)
| EvIfstream (path : string) (res : option string)
| EvStdout (text : string)
(* minilog *)
| EvLog (text : string)
(* GLFW and LVK *)
| EvInitWindow (name : string) (width height : Z) (res : ptr)
| EvCreateVulkanContext (window : ptr) (width height : Z) (res : ptr)
| EvCreateShaderModule (code : vector) (size : Z) (stage : LvkStage)
    (debugName : string) (res : ptr)
| EvGetSwapchainFormat (res : Z)
| EvCreateRenderPipeline (desc : RenderPipelineDesc) (format : Z) (res : ptr)
| EvWindowShouldClose (res : bool)
| EvPollEvents
| EvGetFramebufferSize (res : Z * Z)
| EvGetTime (res : Z)
| EvAcquireCommandBuffer
| EvGetCurrentSwapchainTexture (res : ptr)
| EvBeginRendering (texture : ptr)
| EvPushDebugGroupLabel (label : string) (color : Z)
| EvBindRenderPipeline (pipeline : ptr)
| EvPushConstants (m : Mat4)
| EvDraw (vertexCount : Z)
| EvPopDebugGroupLabel
| EvEndRendering
| EvSubmit (texture : ptr).

Definition History := list Event.

(** The outside world: each answer may depend on everything that happened
    before the call. *)
Record World := {
  slang_createGlobalSession : History -> SlangResult * ptr;
  slang_findProfile : History -> ptr -> string -> Z;
  slang_createSession :
    History -> ptr -> SlangCompileTarget -> Z -> SlangResult * ptr;
  slang_loadModule : History -> ptr -> string -> ptr * DiagBlob;
  slang_findAndCheckEntryPoint :
    History -> ptr -> string -> SlangStage -> ptr * DiagBlob;
  slang_createCompositeComponentType :
    History -> ptr -> list ptr -> SlangResult * ptr * DiagBlob;
  slang_link : History -> ptr -> SlangResult * ptr * DiagBlob;
  slang_getLayout : History -> ptr -> option ProgramLayout;
  slang_getEntryPointCode :
    History -> ptr -> Z -> Z -> SlangResult * CodeBlob * DiagBlob;
  std_ifstream : History -> string -> option string;
  lvk_initWindow : History -> string -> Z -> Z -> ptr;
  lvk_createVulkanContextWithSwapchain : History -> ptr -> Z -> Z -> ptr;
  lvk_createShaderModule :
    History -> vector -> Z -> LvkStage -> string -> ptr;
  lvk_getSwapchainFormat : History -> Z;
  lvk_createRenderPipeline : History -> RenderPipelineDesc -> Z -> ptr;
  lvk_getCurrentSwapchainTexture : History -> ptr;
  glfwWindowShouldClose : History -> bool;
  glfwGetFramebufferSize : History -> Z * Z;
  glfwGetTime : History -> Z
}.

(** ** The monad: an object of type [O] and the history *)

Definition M (O A : Type) : Type := O -> History -> A * O * History.

Definition ret {O A} (a : A) : M O A := fun o h => (a, o, h).

Definition bind {O A B} (c : M O A) (k : A -> M O B) : M O B :=
  fun o h => let '(a, o', h') := c o h in k a o' h'.

Definition this {O} : M O O := fun o h => (o, o, h).

Definition modify {O} (f : O -> O) : M O unit := fun o h => (tt, f o, h).

(** A call into the world: ask, and log the call with its answer. *)
Definition extern {O R} (answer : History -> R) (ev : R -> Event) : M O R :=
  fun o h => let r := answer h in (r, o, h ++ [ev r]).

(** An effect with no answer. *)
Definition emit {O} (ev : Event) : M O unit :=
  fun o h => (tt, o, h ++ [ev]).

Declare Scope monad_scope.
Delimit Scope monad_scope with monad.
Notation "x <- c ;; k" := (bind c (fun x => k))
  (at level 61, c at next level, right associativity) : monad_scope.
Notation "' pat <- c ;; k" := (bind c (fun x => match x with pat => k end))
  (at level 61, pat pattern, c at next level, right associativity)
  : monad_scope.
Notation "c ;; k" := (bind c (fun _ => k))
  (at level 61, right associativity) : monad_scope.

(** ** Strings *)

Definition endl : string := String (ascii_of_nat 10) EmptyString.

(** [operator<<(unsigned)]: decimal digits. *)
Definition dec (n : nat) : string := NilEmpty.string_of_uint (Nat.to_uint n).

Definition is_suffix (d s : string) : Prop :=
  exists pre, s = (pre ++ d)%string.

Definition contains (d s : string) : Prop :=
  exists pre post, s = (pre ++ d ++ post)%string.

(** ** Bytes and words *)

Definition byteZ (b : Byte.byte) : Z := Z.of_N (Byte.to_N b).

(** The four bytes of a [uint32_t] in memory (little-endian, as on every
    target the application builds for). *)
Definition word_of_bytes (b0 b1 b2 b3 : Byte.byte) : uint32_t :=
  (byteZ b0 + 256 * (byteZ b1 + 256 * (byteZ b2 + 256 * byteZ b3)))%Z.

Definition byte_of_Z (z : Z) : Byte.byte :=
  match Byte.of_N (Z.to_N (z mod 256)) with
  | Some b => b
  | None => Byte.x00
  end.

Definition bytes_of_word (w : uint32_t) : list Byte.byte :=
  [byte_of_Z w; byte_of_Z (w / 256); byte_of_Z (w / 65536);
   byte_of_Z (w / 16777216)].

(** The object representation of a vector's storage. *)
Definition bytes_of_words (v : vector) : list Byte.byte :=
  flat_map bytes_of_word v.

(** Reading whole words out of a byte buffer. *)
Fixpoint words_of_bytes (bs : list Byte.byte) : vector :=
  match bs with
  | b0 :: b1 :: b2 :: b3 :: rest =>
      word_of_bytes b0 b1 b2 b3 :: words_of_bytes rest
  | _ => []
  end.

(** [std::vector::resize(n)]: truncate, or pad with value-initialised
    elements. *)
Definition resize (n : nat) (v : vector) : vector :=
  firstn n v ++ repeat 0%Z (n - List.length v).

(** [std::memcpy(dst.data(), src, size)] with [size] a multiple of 4: the
    first [size / 4] words of [dst] are overwritten. *)
Definition memcpy (dst : vector) (src : list Byte.byte) (size : nat)
  : vector :=
  words_of_bytes (firstn size src) ++ skipn (size / 4) dst.

(** ** compiler.h / compiler.cpp *)

Module Compiler.

Local Open Scope monad_scope.
Local Open Scope string_scope.

(** The private members of [class SlangCompiler]. *)
Record SlangCompiler := {
  globalSession : ptr;
  session : ptr;
  initialized : bool;
  lastDiagnostics : string
}.

(** [SlangCompiler::SlangCompiler() = default]. *)
Definition SlangCompiler_new : SlangCompiler :=
  {| globalSession := nullptr; session := nullptr;
     initialized := false; lastDiagnostics := "" |}.

Definition set_globalSession (p : ptr) (c : SlangCompiler) : SlangCompiler :=
  {| globalSession := p; session := session c;
     initialized := initialized c; lastDiagnostics := lastDiagnostics c |}.

Definition set_session (p : ptr) (c : SlangCompiler) : SlangCompiler :=
  {| globalSession := globalSession c; session := p;
     initialized := initialized c; lastDiagnostics := lastDiagnostics c |}.

Definition set_initialized (b : bool) (c : SlangCompiler) : SlangCompiler :=
  {| globalSession := globalSession c; session := session c;
     initialized := b; lastDiagnostics := lastDiagnostics c |}.

Definition set_lastDiagnostics (s : string) (c : SlangCompiler)
  : SlangCompiler :=
  {| globalSession := globalSession c; session := session c;
     initialized := initialized c; lastDiagnostics := s |}.

(** [lastDiagnostics += diag]. *)
Definition append_lastDiagnostics (diag : string) (c : SlangCompiler)
  : SlangCompiler :=
  set_lastDiagnostics (lastDiagnostics c ++ diag) c.

Definition CompilerM := M SlangCompiler.

(** [if (blob) lastDiagnostics = std::string(blob->getBufferPointer(), ...)]. *)
Definition assign_blob (blob : DiagBlob) (c : SlangCompiler) : SlangCompiler :=
  match blob with
  | Some text => set_lastDiagnostics text c
  | None => c
  end.

Definition assign_diagnostics (blob : DiagBlob) : CompilerM unit :=
  modify (assign_blob blob).

(** [if (blob) { std::string diag(...); lastDiagnostics += diag; }]. *)
Definition append_blob (blob : DiagBlob) (c : SlangCompiler) : SlangCompiler :=
  match blob with
  | Some diag => append_lastDiagnostics diag c
  | None => c
  end.

Definition append_diagnostics (blob : DiagBlob) : CompilerM unit :=
  modify (append_blob blob).

Section WithWorld.

Variable w : World.

(** [bool SlangCompiler::initialize(SlangCompileTarget target)]. *)
Definition initialize (target : SlangCompileTarget) : CompilerM bool :=
  c <- this ;;
  if initialized c then ret true else
  (* Create global session *)
  '(r, gs) <- extern (slang_createGlobalSession w) EvCreateGlobalSession ;;
  modify (set_globalSession gs) ;;
  if SLANG_FAILED r then
    modify (set_lastDiagnostics "Failed to create Slang global session") ;;
    ret false
  else
  (* Configure session description *)
  profile <- extern (fun h => slang_findProfile w h gs "spirv_1_5")
                    (EvFindProfile gs "spirv_1_5") ;;
  (* Create session *)
  '(r, s) <- extern (fun h => slang_createSession w h gs target profile)
                    (EvCreateSession gs target profile) ;;
  modify (set_session s) ;;
  if SLANG_FAILED r then
    modify (set_lastDiagnostics "Failed to create Slang session") ;;
    ret false
  else
  modify (set_initialized true) ;;
  ret true.

(** [bool isInitialized() const]. *)
Definition isInitialized (c : SlangCompiler) : bool := initialized c.

(** [std::string SlangCompiler::getLastDiagnostics() const]. *)
Definition getLastDiagnostics (c : SlangCompiler) : string :=
  lastDiagnostics c.

(** The reflection dump written to [std::cout]. *)
Definition stageName (s : SlangStage) : string :=
  match s with
  | SLANG_STAGE_VERTEX => "vertex"
  | SLANG_STAGE_FRAGMENT => "fragment"
  | SLANG_STAGE_COMPUTE => "compute"
  | SLANG_STAGE_GEOMETRY => "geometry"
  | SLANG_STAGE_HULL => "hull"
  | SLANG_STAGE_DOMAIN => "domain"
  | _ => "unknown"
  end.

Fixpoint print_entry_points (i : nat) (eps : list (string * SlangStage))
  : string :=
  match eps with
  | [] => ""
  | (epName, epStage) :: rest =>
      "  [" ++ dec i ++ "] " ++ epName ++ " (" ++ stageName epStage ++ ")"
        ++ endl ++ print_entry_points (S i) rest
  end.

Fixpoint print_parameters (i : nat) (ps : list (string * option string))
  : string :=
  match ps with
  | [] => ""
  | (paramName, paramType) :: rest =>
      let typeName :=
        match paramType with Some n => n | None => "unknown" end in
      "  [" ++ dec i ++ "] " ++ paramName ++ " : " ++ typeName
        ++ endl ++ print_parameters (S i) rest
  end.

Definition print_reflection (entryPoint : string) (layout : ProgramLayout)
  : string :=
  "=== Shader Reflection: " ++ entryPoint ++ " ===" ++ endl
  ++ "Entry Points: " ++ dec (List.length (layoutEntryPoints layout)) ++ endl
  ++ print_entry_points 0 (layoutEntryPoints layout)
  ++ (if Nat.ltb 0 (List.length (layoutParameters layout)) then
        "Global Parameters: " ++ dec (List.length (layoutParameters layout))
          ++ endl ++ print_parameters 0 (layoutParameters layout)
      else "")
  ++ "================================" ++ endl.

(** What a compile function leaves behind: the returned [bool] and the two
    by-reference arguments [outSpirv] and [outErrorMsg]. *)
Definition CompileResult : Type := bool * vector * string.

(** [bool SlangCompiler::compileEntryPoint(shaderPath, entryPoint, stage,
    outSpirv, outErrorMsg)]. *)
Definition compileEntryPoint (shaderPath entryPoint : string)
    (stage : SlangStage) (outSpirv : vector) (outErrorMsg : string)
  : CompilerM CompileResult :=
  modify (set_lastDiagnostics "") ;;
  (* Read shader file *)
  file <- extern (fun h => std_ifstream w h shaderPath)
                 (EvIfstream shaderPath) ;;
  match file with
  | None =>
      ret (false, outSpirv, "Failed to open shader file: " ++ shaderPath)
  | Some shaderCode =>
  (* Load the module *)
  c <- this ;;
  '(module, diagnosticsBlob) <-
     extern (fun h => slang_loadModule w h (session c) shaderPath)
            (EvLoadModule (session c) shaderPath) ;;
  assign_diagnostics diagnosticsBlob ;;
  c <- this ;;
  if is_null module then
    ret (false, outSpirv,
         "Failed to load module: " ++ shaderPath ++ endl
           ++ lastDiagnostics c)
  else
  (* Find entry point *)
  '(entryPointObj, diagnosticsBlob) <-
     extern (fun h => slang_findAndCheckEntryPoint w h module entryPoint stage)
            (EvFindAndCheckEntryPoint module entryPoint stage) ;;
  assign_diagnostics diagnosticsBlob ;;
  c <- this ;;
  if is_null entryPointObj then
    ret (false, outSpirv,
         "Failed to find entry point: " ++ entryPoint ++ " in " ++ shaderPath
           ++ endl ++ lastDiagnostics c)
  else
  (* Create component type list for linking *)
  let componentTypes := [module; entryPointObj] in
  (* Create composite component type (linked program) *)
  '(result, composedProgram, composeDiagnostics) <-
     extern (fun h =>
               slang_createCompositeComponentType w h (session c)
                 componentTypes)
            (EvCreateCompositeComponentType (session c) componentTypes) ;;
  append_diagnostics composeDiagnostics ;;
  c <- this ;;
  if SLANG_FAILED result then
    ret (false, outSpirv, "Failed to compose program" ++ endl
                            ++ lastDiagnostics c)
  else
  (* Link the program *)
  '(result, linkedProgram, linkDiagnostics) <-
     extern (fun h => slang_link w h composedProgram)
            (EvLink composedProgram) ;;
  append_diagnostics linkDiagnostics ;;
  c <- this ;;
  if SLANG_FAILED result then
    ret (false, outSpirv, "Failed to link program" ++ endl
                            ++ lastDiagnostics c)
  else
  (* Print reflection information *)
  layout <- extern (fun h => slang_getLayout w h linkedProgram)
                   (EvGetLayout linkedProgram) ;;
  match layout with
  | Some l => emit (EvStdout (print_reflection entryPoint l))
  | None => ret tt
  end ;;
  (* Get the compiled code *)
  '(result, spirvCode, getDiagnostics) <-
     extern (fun h => slang_getEntryPointCode w h linkedProgram 0 0)
            (EvGetEntryPointCode linkedProgram 0 0) ;;
  append_diagnostics getDiagnostics ;;
  c <- this ;;
  if SLANG_FAILED result || blob_is_null spirvCode then
    ret (false, outSpirv, "Failed to get compiled code" ++ endl
                            ++ lastDiagnostics c)
  else
  (* Copy SPIRV data to output vector *)
  let spirvData := getBufferPointer spirvCode in
  let spirvSize := getBufferSize spirvCode in
  if negb (Nat.eqb (spirvSize mod 4) 0) then
    ret (false, outSpirv, "Invalid SPIRV size (not multiple of 4 bytes)")
  else
  let outSpirv := resize (spirvSize / 4) outSpirv in
  let outSpirv := memcpy outSpirv spirvData spirvSize in
  ret (true, outSpirv, outErrorMsg)
  end.

(** [bool SlangCompiler::compileToSPIRV(shaderPath, entryPoint, stage,
    outSpirv, outErrorMsg)]. *)
Definition compileToSPIRV (shaderPath entryPoint : string)
    (stage : SlangStage) (outSpirv : vector) (outErrorMsg : string)
  : CompilerM CompileResult :=
  c <- this ;;
  if negb (initialized c) then
    ret (false, outSpirv, "Compiler not initialized")
  else
  compileEntryPoint shaderPath entryPoint stage outSpirv outErrorMsg.

(** [bool SlangCompiler::compileVertexFragment(shaderPath, vertexEntry,
    fragmentEntry, outVertexSpirv, outFragmentSpirv, outErrorMsg)]: the
    returned [bool], then the three by-reference arguments. *)
Definition compileVertexFragment (shaderPath vertexEntry fragmentEntry : string)
    (outVertexSpirv outFragmentSpirv : vector) (outErrorMsg : string)
  : CompilerM (bool * vector * vector * string) :=
  c <- this ;;
  if negb (initialized c) then
    ret (false, outVertexSpirv, outFragmentSpirv, "Compiler not initialized")
  else
  (* Compile vertex shader *)
  '(ok, outVertexSpirv, outErrorMsg) <-
     compileEntryPoint shaderPath vertexEntry SLANG_STAGE_VERTEX
       outVertexSpirv outErrorMsg ;;
  if negb ok then
    ret (false, outVertexSpirv, outFragmentSpirv, outErrorMsg)
  else
  (* Compile fragment shader *)
  '(ok, outFragmentSpirv, outErrorMsg) <-
     compileEntryPoint shaderPath fragmentEntry SLANG_STAGE_FRAGMENT
       outFragmentSpirv outErrorMsg ;;
  if negb ok then
    ret (false, outVertexSpirv, outFragmentSpirv, outErrorMsg)
  else
  ret (true, outVertexSpirv, outFragmentSpirv, outErrorMsg).

End WithWorld.

End Compiler.

(** ** main.cpp *)

Module App.

Import Compiler.
Local Open Scope monad_scope.
Local Open Scope string_scope.

Definition WIDTH : Z := 1680.
Definition HEIGHT : Z := 720.
Definition CUBE_TRIANGLES : Z := 36.
Definition SLANG_CUBE_PATH : string := "src/shaders/cube.slang".

(** The data members of [class WindowApp], in declaration order. *)
Record WindowApp := {
  isWireframe : Z;
  compiler : SlangCompiler;
  vert : ptr;
  frag : ptr;
  pipeline : ptr;
  wireframePipeline : ptr;
  window : ptr;
  ctx : ptr
}.

(** Every member default-initialised, before the constructor body runs. *)
Definition WindowApp_default : WindowApp :=
  {| isWireframe := 0; compiler := SlangCompiler_new;
     vert := nullptr; frag := nullptr;
     pipeline := nullptr; wireframePipeline := nullptr;
     window := nullptr; ctx := nullptr |}.

Definition set_compiler (c : SlangCompiler) (a : WindowApp) : WindowApp :=
  {| isWireframe := isWireframe a; compiler := c;
     vert := vert a; frag := frag a;
     pipeline := pipeline a; wireframePipeline := wireframePipeline a;
     window := window a; ctx := ctx a |}.

Definition set_vert (p : ptr) (a : WindowApp) : WindowApp :=
  {| isWireframe := isWireframe a; compiler := compiler a;
     vert := p; frag := frag a;
     pipeline := pipeline a; wireframePipeline := wireframePipeline a;
     window := window a; ctx := ctx a |}.

Definition set_frag (p : ptr) (a : WindowApp) : WindowApp :=
  {| isWireframe := isWireframe a; compiler := compiler a;
     vert := vert a; frag := p;
     pipeline := pipeline a; wireframePipeline := wireframePipeline a;
     window := window a; ctx := ctx a |}.

Definition set_pipeline (p : ptr) (a : WindowApp) : WindowApp :=
  {| isWireframe := isWireframe a; compiler := compiler a;
     vert := vert a; frag := frag a;
     pipeline := p; wireframePipeline := wireframePipeline a;
     window := window a; ctx := ctx a |}.

Definition set_wireframePipeline (p : ptr) (a : WindowApp) : WindowApp :=
  {| isWireframe := isWireframe a; compiler := compiler a;
     vert := vert a; frag := frag a;
     pipeline := pipeline a; wireframePipeline := p;
     window := window a; ctx := ctx a |}.

Definition set_window (p : ptr) (a : WindowApp) : WindowApp :=
  {| isWireframe := isWireframe a; compiler := compiler a;
     vert := vert a; frag := frag a;
     pipeline := pipeline a; wireframePipeline := wireframePipeline a;
     window := p; ctx := ctx a |}.

Definition set_ctx (p : ptr) (a : WindowApp) : WindowApp :=
  {| isWireframe := isWireframe a; compiler := compiler a;
     vert := vert a; frag := frag a;
     pipeline := pipeline a; wireframePipeline := wireframePipeline a;
     window := window a; ctx := p |}.

Definition AppM := M WindowApp.

(** A member call on [compiler]. *)
Definition on_compiler {A} (c : CompilerM A) : AppM A :=
  fun a h => let '(r, c', h') := c (compiler a) h in (r, set_compiler c' a, h').

Section WithWorld.

Variable w : World.

(** [void initRender()]. *)
Definition initRender : AppM unit :=
  (* Compile vertex and fragment shaders from Slang *)
  let vertSpirv : vector := [] in
  let fragSpirv : vector := [] in
  let errorMsg := "" in
  '(ok, vertSpirv, fragSpirv, errorMsg) <-
     on_compiler (compileVertexFragment w SLANG_CUBE_PATH
                    "cubeVertex" "cubeFragment" vertSpirv fragSpirv errorMsg) ;;
  if negb ok then
    emit (EvLog ("Failed to compile shaders: " ++ errorMsg ++ endl)) ;;
    a <- this ;;
    emit (EvLog ("Diagnostics: " ++ getLastDiagnostics (compiler a) ++ endl))
  else
  (* Create shader modules from compiled SPIRV *)
  v <- extern (fun h =>
                 lvk_createShaderModule w h vertSpirv
                   (Z.of_nat (List.length vertSpirv) * 4) Stage_Vert
                   "Shader Module: cube.slang (vert)")
              (EvCreateShaderModule vertSpirv
                 (Z.of_nat (List.length vertSpirv) * 4) Stage_Vert
                 "Shader Module: cube.slang (vert)") ;;
  modify (set_vert v) ;;
  f <- extern (fun h =>
                 lvk_createShaderModule w h fragSpirv
                   (Z.of_nat (List.length fragSpirv) * 4) Stage_Frag
                   "Shader Module: cube.slang (frag)")
              (EvCreateShaderModule fragSpirv
                 (Z.of_nat (List.length fragSpirv) * 4) Stage_Frag
                 "Shader Module: cube.slang (frag)") ;;
  modify (set_frag f) ;;
  a <- this ;;
  let solidDesc :=
    {| smVert := vert a; smFrag := frag a; specConstant0 := None;
       cullBack := true; polygonMode := PolygonMode_Fill |} in
  format <- extern (lvk_getSwapchainFormat w) EvGetSwapchainFormat ;;
  p <- extern (fun h => lvk_createRenderPipeline w h solidDesc format)
              (EvCreateRenderPipeline solidDesc format) ;;
  modify (set_pipeline p) ;;
  a <- this ;;
  let wireDesc :=
    {| smVert := vert a; smFrag := frag a;
       specConstant0 := Some (isWireframe a);
       cullBack := true; polygonMode := PolygonMode_Line |} in
  format <- extern (lvk_getSwapchainFormat w) EvGetSwapchainFormat ;;
  p <- extern (fun h => lvk_createRenderPipeline w h wireDesc format)
              (EvCreateRenderPipeline wireDesc format) ;;
  modify (set_wireframePipeline p).

(** [WindowApp(const char* name, int width, int height)], run on the
    default-initialised members. *)
Definition WindowApp_ctor (name : string) (width height : Z) : AppM unit :=
  win <- extern (fun h => lvk_initWindow w h name width height)
                (EvInitWindow name width height) ;;
  modify (set_window win) ;;
  c <- extern (fun h =>
                 lvk_createVulkanContextWithSwapchain w h win width height)
              (EvCreateVulkanContext win width height) ;;
  modify (set_ctx c) ;;
  (* Initialize Slang compiler *)
  ok <- on_compiler (initialize w SLANG_SPIRV) ;;
  if negb ok then
    a <- this ;;
    emit (EvLog ("Failed to initialize Slang compiler: "
                   ++ getLastDiagnostics (compiler a) ++ endl))
  else
  initRender.

(** The body of the [while] loop of [run()], after the loop condition. *)
Definition frame : AppM unit :=
  emit EvPollEvents ;;
  '(width, height) <- extern (glfwGetFramebufferSize w) EvGetFramebufferSize ;;
  if Z.eqb width 0 || Z.eqb height 0 then ret tt (* continue *) else
  let ratio := FDiv (FOfInt width) (FOfInt height) in
  t <- extern (glfwGetTime w) EvGetTime ;;
  let m :=
    MRotate
      (MTranslate (MIdentity (FConst "1.0f"))
         (FConst "0.0f") (FConst "0.0f") (FConst "-3.5f"))
      (FOfDouble t)
      (FConst "1.0f") (FConst "1.0f") (FConst "1.0f") in
  let p :=
    MPerspective (FConst "45.0f") ratio (FConst "0.1f") (FConst "1000.0f") in
  emit EvAcquireCommandBuffer ;;
  tex <- extern (lvk_getCurrentSwapchainTexture w)
                EvGetCurrentSwapchainTexture ;;
  emit (EvBeginRendering tex) ;;
  a <- this ;;
  emit (EvPushDebugGroupLabel "Render cube" 4278190335) ;;
  emit (EvBindRenderPipeline (pipeline a)) ;;
  emit (EvPushConstants (MMul p m)) ;;
  emit (EvDraw CUBE_TRIANGLES) ;;
  emit EvPopDebugGroupLabel ;;
  emit (EvPushDebugGroupLabel "Render wireframe cube" 4278190335) ;;
  emit (EvBindRenderPipeline (wireframePipeline a)) ;;
  emit (EvPushConstants (MMul p m)) ;;
  emit (EvDraw CUBE_TRIANGLES) ;;
  emit EvPopDebugGroupLabel ;;
  emit EvEndRendering ;;
  tex <- extern (lvk_getCurrentSwapchainTexture w)
                EvGetCurrentSwapchainTexture ;;
  emit (EvSubmit tex).

(** [void run()]: the loop never ends while the window stays open, so [fuel]
    bounds the number of iterations that are observed.  The result tells
    whether the loop was left because the window asked to close. *)
Fixpoint run (fuel : nat) : AppM bool :=
  match fuel with
  | O => ret false
  | S fuel' =>
      close <- extern (glfwWindowShouldClose w) EvWindowShouldClose ;;
      if close then ret true else
      frame ;;
      run fuel'
  end.

End WithWorld.

End App.

(** ** Vocabulary of the specification *)

Import Compiler.

(** The diagnostics blob a toolchain step handed back, if any. *)
Definition toolchain_diagnostics (e : Event) : DiagBlob :=
  match e with
  | EvLoadModule _ _ (_, d) => d
  | EvFindAndCheckEntryPoint _ _ _ (_, d) => d
  | EvCreateCompositeComponentType _ _ (_, _, d) => d
  | EvLink _ (_, _, d) => d
  | EvGetEntryPointCode _ _ _ (_, _, d) => d
  | _ => None
  end.

Definition is_load_step (e : Event) : bool :=
  match e with
  | EvLoadModule _ _ _ => true
  | _ => false
  end.

Definition is_entry_point_step (e : Event) : bool :=
  match e with
  | EvFindAndCheckEntryPoint _ _ _ _ => true
  | _ => false
  end.

(** The five steps of the toolchain pipeline. *)
Inductive PipelineStep :=
| StepLoadModule
| StepResolveEntryPoint
| StepComposeProgram
| StepLinkProgram
| StepExtractCode.

Definition pipeline : list PipelineStep :=
  [StepLoadModule; StepResolveEntryPoint; StepComposeProgram;
   StepLinkProgram; StepExtractCode].

Definition step_of (e : Event) : option PipelineStep :=
  match e with
  | EvLoadModule _ _ _ => Some StepLoadModule
  | EvFindAndCheckEntryPoint _ _ _ _ => Some StepResolveEntryPoint
  | EvCreateCompositeComponentType _ _ _ => Some StepComposeProgram
  | EvLink _ _ => Some StepLinkProgram
  | EvGetEntryPointCode _ _ _ _ => Some StepExtractCode
  | _ => None
  end.

(** The pipeline steps among the calls [evs], in the order they were made. *)
Fixpoint steps_performed (evs : list Event) : list PipelineStep :=
  match evs with
  | [] => []
  | e :: rest =>
      match step_of e with
      | Some st => st :: steps_performed rest
      | None => steps_performed rest
      end
  end.

(** Where a compilation stands in the toolchain pipeline. *)
Inductive Expect :=
| ExpectSource
| ExpectModule
| ExpectEntryPoint (module : ptr)
| ExpectComposition (module entryPointObj : ptr)
| ExpectLinking (composed : ptr)
| ExpectReflection (linked : ptr)
| ExpectCode (linked : ptr).

(** [performs session path entry stage x evs]: starting from [x], the calls
    [evs] are the pipeline steps in order (load the module from disk by path,
    resolve the entry point for the stage, compose module and entry point,
    link the composition, extract the code blob), each step fed with what the
    steps before it produced, and the first step that fails is the last call.
    Loading from disk begins with reading the file; after linking, the
    reflection of the linked program is read and written to the standard
    output, which cannot fail. *)
Inductive performs (s : ptr) (path entry : string) (stage : SlangStage)
  : Expect -> list Event -> Prop :=
| performs_source_failed :
    performs s path entry stage ExpectSource [EvIfstream path None]
| performs_source : forall code evs,
    performs s path entry stage ExpectModule evs ->
    performs s path entry stage ExpectSource
      (EvIfstream path (Some code) :: evs)
| performs_module_failed : forall d,
    performs s path entry stage ExpectModule
      [EvLoadModule s path (nullptr, d)]
| performs_module : forall m d evs,
    is_null m = false ->
    performs s path entry stage (ExpectEntryPoint m) evs ->
    performs s path entry stage ExpectModule
      (EvLoadModule s path (m, d) :: evs)
| performs_entry_failed : forall m d,
    performs s path entry stage (ExpectEntryPoint m)
      [EvFindAndCheckEntryPoint m entry stage (nullptr, d)]
| performs_entry : forall m e d evs,
    is_null e = false ->
    performs s path entry stage (ExpectComposition m e) evs ->
    performs s path entry stage (ExpectEntryPoint m)
      (EvFindAndCheckEntryPoint m entry stage (e, d) :: evs)
| performs_compose_failed : forall m e r p d,
    SLANG_FAILED r = true ->
    performs s path entry stage (ExpectComposition m e)
      [EvCreateCompositeComponentType s [m; e] (r, p, d)]
| performs_compose : forall m e r p d evs,
    SLANG_FAILED r = false ->
    performs s path entry stage (ExpectLinking p) evs ->
    performs s path entry stage (ExpectComposition m e)
      (EvCreateCompositeComponentType s [m; e] (r, p, d) :: evs)
| performs_link_failed : forall p r l d,
    SLANG_FAILED r = true ->
    performs s path entry stage (ExpectLinking p) [EvLink p (r, l, d)]
| performs_link : forall p r l d evs,
    SLANG_FAILED r = false ->
    performs s path entry stage (ExpectReflection l) evs ->
    performs s path entry stage (ExpectLinking p) (EvLink p (r, l, d) :: evs)
| performs_reflection_none : forall l evs,
    performs s path entry stage (ExpectCode l) evs ->
    performs s path entry stage (ExpectReflection l)
      (EvGetLayout l None :: evs)
| performs_reflection : forall l layout evs,
    performs s path entry stage (ExpectCode l) evs ->
    performs s path entry stage (ExpectReflection l)
      (EvGetLayout l (Some layout)
         :: EvStdout (print_reflection entry layout) :: evs)
| performs_code : forall l res,
    performs s path entry stage (ExpectCode l)
      [EvGetEntryPointCode l 0 0 res].

(** The commands of a frame that put geometry on the screen. *)
Definition is_draw_command (e : Event) : bool :=
  match e with
  | EvBindRenderPipeline _ | EvPushConstants _ | EvDraw _ => true
  | _ => false
  end.

(** Creation of a shader module or of a render pipeline. *)
Definition is_creation (e : Event) : bool :=
  match e with
  | EvCreateShaderModule _ _ _ _ _ | EvCreateRenderPipeline _ _ _ => true
  | _ => false
  end.

(** Every diagnostics text is put into the compiler's diagnostics string:
    the text of the last toolchain call ends the string, the texts of the
    steps after the load are all inside it, and so is the text of the load
    unless the entry-point step came with a text of its own. *)
Definition diagnostics_captured (evs : list Event) (c : SlangCompiler) : Prop :=
  (forall d, toolchain_diagnostics (last evs EvPollEvents) = Some d ->
             is_suffix d (lastDiagnostics c))
  /\ (forall e d, In e evs -> is_load_step e = false ->
                  toolchain_diagnostics e = Some d ->
                  contains d (lastDiagnostics c))
  /\ (forall e d, In e evs -> is_load_step e = true ->
                  toolchain_diagnostics e = Some d ->
                  (forall e', In e' evs -> is_entry_point_step e' = true ->
                              toolchain_diagnostics e' = None) ->
                  contains d (lastDiagnostics c)).

(** One stage of compilation, as the specification describes it: the steps
    made are the first ones of the pipeline, in its order; they are chained
    and stop at the first failure; their diagnostics are captured. *)
Definition stage_compiled (s : ptr) (path entry : string) (stage : SlangStage)
    (evs : list Event) (c : SlangCompiler) : Prop :=
  steps_performed evs
    = firstn (List.length (steps_performed evs)) pipeline
  /\ performs s path entry stage ExpectSource evs
  /\ diagnostics_captured evs c.

(** The model matrix of a frame: the rotation by the time sample [t]. *)
Definition rotation (t : Z) : Mat4 :=
  MRotate
    (MTranslate (MIdentity (FConst "1.0f"))
       (FConst "0.0f") (FConst "0.0f") (FConst "-3.5f"))
    (FOfDouble t)
    (FConst "1.0f") (FConst "1.0f") (FConst "1.0f").

Definition is_time_sample (e : Event) : bool :=
  match e with
  | EvGetTime _ => true
  | _ => false
  end.

(** The calls [evs] put the cube on the screen exactly twice: one draw of 36
    vertices with the solid pipeline, then one with the wireframe pipeline,
    both with the same matrix, whose model part is the rotation by the one
    time sample taken. *)
Definition renders_cube_twice (a : App.WindowApp) (evs : list Event) : Prop :=
  exists t p,
    filter is_time_sample evs = [EvGetTime t]
    /\ filter is_draw_command evs
       = [EvBindRenderPipeline (App.pipeline a);
          EvPushConstants (MMul p (rotation t));
          EvDraw 36;
          EvBindRenderPipeline (App.wireframePipeline a);
          EvPushConstants (MMul p (rotation t));
          EvDraw 36].

(** One iteration of the render loop: when the framebuffer it saw has a
    non-zero size, it renders the cube twice. *)
Definition iteration_renders (a : App.WindowApp) (evs : list Event) : Prop :=
  forall width height,
    In (EvGetFramebufferSize (width, height)) evs ->
    width <> 0%Z -> height <> 0%Z ->
    renders_cube_twice a evs.

(** A failed initialisation path: the error went to the log, no shader
    module and no render pipeline was created, and the four holders are what
    they were. *)
Definition fatal_to_initialization (a a' : App.WindowApp) (evs : list Event)
    (logged : string) : Prop :=
  In (EvLog logged) evs
  /\ filter is_creation evs = []
  /\ App.vert a' = App.vert a /\ App.frag a' = App.frag a
  /\ App.pipeline a' = App.pipeline a
  /\ App.wireframePipeline a' = App.wireframePipeline a.

(** The application and the history when the constructor reaches
    [compiler.initialize]: the window and the context have been created. *)
Definition at_initialize (w : World) (name : string) (width height : Z)
    (a : App.WindowApp) (h : History) : App.WindowApp * History :=
  let win := lvk_initWindow w h name width height in
  let h1 := h ++ [EvInitWindow name width height win] in
  let context := lvk_createVulkanContextWithSwapchain w h1 win width height in
  (App.set_ctx context (App.set_window win a),
   h1 ++ [EvCreateVulkanContext win width height context]).

(** A successful extraction of [data] is the last call of [evs]. *)
Definition code_extracted (evs : list Event) (data : list Byte.byte) : Prop :=
  exists before l r d,
    evs = before ++ [EvGetEntryPointCode l 0 0 (r, Some data, d)]
    /\ SLANG_FAILED r = false.

Definition invalid_size_message : string :=
  "Invalid SPIRV size (not multiple of 4 bytes)".

(** How an error message names the call that failed. *)
Definition failure_labels (e : Event) : list string :=
  match e with
  | EvCreateGlobalSession _ => ["Failed to create Slang global session"]
  | EvCreateSession _ _ _ _ => ["Failed to create Slang session"]
  | EvIfstream _ _ => ["Failed to open shader file: "]
  | EvLoadModule _ _ _ => ["Failed to load module: "]
  | EvFindAndCheckEntryPoint _ _ _ _ => ["Failed to find entry point: "]
  | EvCreateCompositeComponentType _ _ _ => ["Failed to compose program"]
  | EvLink _ _ => ["Failed to link program"]
  | EvGetEntryPointCode _ _ _ _ =>
      ["Failed to get compiled code";
       "Invalid SPIRV size (not multiple of 4 bytes)"]
  | _ => []
  end%string.

(** An error message that names the last call of [evs]. *)
Definition names_failing_step (evs : list Event) (msg : string) : Prop :=
  msg <> ""%string
  /\ exists before e label,
       evs = before ++ [e]
       /\ In label (failure_labels e)
       /\ String.prefix label msg = true.

(** ** Sample worlds

    Worlds used to run the model on concrete inputs.  The toolchain and the
    graphics layer answer the same whatever happened before; the window asks
    to close once forty calls have been made, and the clock reads the number
    of calls made so far. *)
Definition sample_world
    (globalSessionAnswer sessionAnswer : SlangResult * ptr)
    (file : option string)
    (moduleAnswer : ptr * DiagBlob)
    (entryPointAnswer : SlangStage -> ptr * DiagBlob)
    (composeAnswer linkAnswer : SlangResult * ptr * DiagBlob)
    (layout : option ProgramLayout)
    (codeAnswer : ptr -> SlangResult * CodeBlob * DiagBlob)
    (size : Z * Z) : World :=
  {| slang_createGlobalSession := fun _ => globalSessionAnswer;
     slang_findProfile := fun _ _ _ => 7%Z;
     slang_createSession := fun _ _ _ _ => sessionAnswer;
     slang_loadModule := fun _ _ _ => moduleAnswer;
     slang_findAndCheckEntryPoint := fun _ _ _ stage => entryPointAnswer stage;
     slang_createCompositeComponentType := fun _ _ comps =>
       match composeAnswer with
       | (r, p, d) => (r, N.add p (List.fold_right N.add 0%N comps), d)
       end;
     slang_link := fun _ composed =>
       match linkAnswer with
       | (r, p, d) => (r, N.add p composed, d)
       end;
     slang_getLayout := fun _ _ => layout;
     slang_getEntryPointCode := fun _ linked _ _ => codeAnswer linked;
     std_ifstream := fun _ _ => file;
     lvk_initWindow := fun _ _ _ _ => 1%N;
     lvk_createVulkanContextWithSwapchain := fun _ _ _ _ => 2%N;
     lvk_createShaderModule := fun _ _ _ stage _ =>
       match stage with Stage_Vert => 3%N | Stage_Frag => 4%N end;
     lvk_getSwapchainFormat := fun _ => 44%Z;
     lvk_createRenderPipeline := fun _ desc _ =>
       match polygonMode desc with
       | PolygonMode_Fill => 5%N
       | PolygonMode_Line => 6%N
       end;
     lvk_getCurrentSwapchainTexture := fun _ => 8%N;
     glfwWindowShouldClose := fun h => Nat.ltb 40 (List.length h);
     glfwGetFramebufferSize := fun _ => size;
     glfwGetTime := fun h => Z.of_nat (List.length h) |}.

Definition sample_layout : ProgramLayout :=
  {| layoutEntryPoints := [("cubeVertex"%string, SLANG_STAGE_VERTEX)];
     layoutParameters := [("mvp"%string, Some "float4x4"%string);
                          ("tint"%string, None)] |}.

Definition sample_code : list Byte.byte :=
  [Byte.x03; Byte.x02; Byte.x23; Byte.x07;
   Byte.x00; Byte.x05; Byte.x01; Byte.x00].

(** A world in which every call succeeds; the vertex stage comes with a
    linker warning. *)
Definition healthy_world : World :=
  sample_world (0%Z, 11%N) (0%Z, 12%N) (Some "shader text"%string)
    (13%N, None)
    (fun stage =>
       match stage with
       | SLANG_STAGE_VERTEX => (14%N, None)
       | _ => (15%N, Some "note: fragment entry"%string)
       end)
    (0%Z, 16%N, None) (0%Z, 100%N, Some "warning: unused"%string)
    (Some sample_layout)
    (fun _ => (0%Z, Some sample_code, None))
    (1680%Z, 720%Z).

(** The module loads with a warning, then the entry point is not found. *)
Definition missing_entry_world : World :=
  sample_world (0%Z, 11%N) (0%Z, 12%N) (Some "shader text"%string)
    (13%N, Some "warning: W1"%string)
    (fun _ => (nullptr, Some "error: E2"%string))
    (0%Z, 16%N, None) (0%Z, 100%N, None) None
    (fun _ => (0%Z, Some sample_code, None))
    (1680%Z, 720%Z).

(** The code blob has a length that is not a multiple of four. *)
Definition odd_blob_world : World :=
  sample_world (0%Z, 11%N) (0%Z, 12%N) (Some "shader text"%string)
    (13%N, None) (fun _ => (14%N, None))
    (0%Z, 16%N, None) (0%Z, 100%N, None) None
    (fun _ => (0%Z, Some [Byte.x03; Byte.x02; Byte.x23], None))
    (1680%Z, 720%Z).

(** The global session cannot be created. *)
Definition no_session_world : World :=
  sample_world ((-1)%Z, nullptr) (0%Z, 12%N) None
    (nullptr, None) (fun _ => (nullptr, None))
    (0%Z, 16%N, None) (0%Z, 100%N, None) None
    (fun _ => (0%Z, None, None))
    (0%Z, 0%Z).

(** A compiler on which [initialize] has succeeded. *)
Definition ready_compiler : SlangCompiler :=
  {| globalSession := 11%N; session := 12%N;
     initialized := true; lastDiagnostics := "" |}.

(** Runs on the sample worlds. *)
Definition sample_path : string := "src/shaders/cube.slang".

Definition sample_compile : CompileResult * SlangCompiler * History :=
  compileToSPIRV healthy_world sample_path "cubeVertex" SLANG_STAGE_VERTEX
    [] "" ready_compiler [].

Definition sample_compile_both
  : bool * vector * vector * string * SlangCompiler * History :=
  compileVertexFragment healthy_world sample_path "cubeVertex" "cubeFragment"
    [] [] "" ready_compiler [].

Definition sample_missing_entry : CompileResult * SlangCompiler * History :=
  compileEntryPoint missing_entry_world sample_path "cubeVertex"
    SLANG_STAGE_VERTEX [1%Z] "" ready_compiler [].

Definition sample_odd_blob : CompileResult * SlangCompiler * History :=
  compileToSPIRV odd_blob_world sample_path "cubeVertex" SLANG_STAGE_VERTEX
    [] "" ready_compiler [].

(** The application after its constructor has run in the healthy world. *)
Definition sample_app : App.WindowApp :=
  snd (fst (App.WindowApp_ctor healthy_world "Kholst" App.WIDTH App.HEIGHT
              App.WindowApp_default [])).

(** The five components of what a compile call leaves behind. *)
Definition result_ok {V} (r : bool * V * string * SlangCompiler * History)
  : bool := fst (fst (fst (fst r))).
Definition result_out {V} (r : bool * V * string * SlangCompiler * History)
  : V := snd (fst (fst (fst r))).
Definition result_err {V} (r : bool * V * string * SlangCompiler * History)
  : string := snd (fst (fst r)).
Definition result_compiler {V}
    (r : bool * V * string * SlangCompiler * History) : SlangCompiler :=
  snd (fst r).
Definition result_history {V}
    (r : bool * V * string * SlangCompiler * History) : History :=
  snd r.

(** ** Further vocabulary *)

(** What one call does to the diagnostics string: the texts of the load and
    of the entry-point step are assigned, the texts of the composition, of
    the link and of the extraction are appended. *)
Definition replay_diagnostics (s : string) (e : Event) : string :=
  match e with
  | EvLoadModule _ _ (_, Some d) => d
  | EvFindAndCheckEntryPoint _ _ _ (_, Some d) => d
  | EvCreateCompositeComponentType _ _ (_, _, Some d) => (s ++ d)%string
  | EvLink _ (_, _, Some d) => (s ++ d)%string
  | EvGetEntryPointCode _ _ _ (_, _, Some d) => (s ++ d)%string
  | _ => s
  end.

(** The diagnostics string that the calls [evs] of one stage build up from
    the empty string. *)
Definition diagnostics_of (evs : list Event) : string :=
  fold_left replay_diagnostics evs ""%string.

(** The calls of the compiler adapter: Slang, the source file, the standard
    output. *)
Definition is_compiler_call (e : Event) : bool :=
  match e with
  | EvCreateGlobalSession _ | EvFindProfile _ _ _ | EvCreateSession _ _ _ _
  | EvLoadModule _ _ _ | EvFindAndCheckEntryPoint _ _ _ _
  | EvCreateCompositeComponentType _ _ _ | EvLink _ _ | EvGetLayout _ _
  | EvGetEntryPointCode _ _ _ _ | EvIfstream _ _ | EvStdout _ => true
  | _ => false
  end.

(** How often a kind of call occurs. *)
Definition count_calls (f : Event -> bool) (evs : list Event) : nat :=
  List.length (filter f evs).

Definition is_acquire (e : Event) : bool :=
  match e with EvAcquireCommandBuffer => true | _ => false end.
Definition is_submit (e : Event) : bool :=
  match e with EvSubmit _ => true | _ => false end.
Definition is_begin_rendering (e : Event) : bool :=
  match e with EvBeginRendering _ => true | _ => false end.
Definition is_end_rendering (e : Event) : bool :=
  match e with EvEndRendering => true | _ => false end.
Definition is_push_label (e : Event) : bool :=
  match e with EvPushDebugGroupLabel _ _ => true | _ => false end.
Definition is_pop_label (e : Event) : bool :=
  match e with EvPopDebugGroupLabel => true | _ => false end.
Definition is_draw (e : Event) : bool :=
  match e with EvDraw _ => true | _ => false end.
Definition is_log (e : Event) : bool :=
  match e with EvLog _ => true | _ => false end.

Definition is_bind (e : Event) : bool :=
  match e with EvBindRenderPipeline _ => true | _ => false end.

(** A framebuffer size with which a frame is rendered. *)
Definition is_nonzero_size (e : Event) : bool :=
  match e with
  | EvGetFramebufferSize (width, height) =>
      negb (Z.eqb width 0 || Z.eqb height 0)
  | _ => false
  end.

(** The calls [evs] of the render loop are balanced: with [n] the number of
    framebuffers of non-zero size it saw, it read the clock, acquired a
    command buffer, began and ended rendering and submitted [n] times each,
    and bound a pipeline, drew, pushed and popped a debug label [2 * n]
    times each. *)
Definition frames_balanced (evs : list Event) : Prop :=
  let n := count_calls is_nonzero_size evs in
  count_calls is_time_sample evs = n
  /\ count_calls is_acquire evs = n
  /\ count_calls is_begin_rendering evs = n
  /\ count_calls is_end_rendering evs = n
  /\ count_calls is_submit evs = n
  /\ count_calls is_bind evs = 2 * n
  /\ count_calls is_draw evs = 2 * n
  /\ count_calls is_push_label evs = 2 * n
  /\ count_calls is_pop_label evs = 2 * n.

(** The calls [evs] stay within the render loop: nothing is compiled,
    created or logged. *)
Definition only_renders (evs : list Event) : Prop :=
  filter is_compiler_call evs = []
  /\ filter is_creation evs = []
  /\ filter is_log evs = [].

(** The four creations of a successful [initRender], with the handles they
    returned: the two shader modules, then the solid and the wireframe
    pipeline over those two modules. *)
Definition render_objects_created (vertSpirv fragSpirv : vector)
    (wireframe : Z) (v f p q : ptr) (creations : list Event) : Prop :=
  exists format1 format2,
    creations
    = [EvCreateShaderModule vertSpirv
         (Z.of_nat (List.length vertSpirv) * 4) Stage_Vert
         "Shader Module: cube.slang (vert)" v;
       EvCreateShaderModule fragSpirv
         (Z.of_nat (List.length fragSpirv) * 4) Stage_Frag
         "Shader Module: cube.slang (frag)" f;
       EvCreateRenderPipeline
         {| smVert := v; smFrag := f; specConstant0 := None;
            cullBack := true; polygonMode := PolygonMode_Fill |} format1 p;
       EvCreateRenderPipeline
         {| smVert := v; smFrag := f; specConstant0 := Some wireframe;
            cullBack := true; polygonMode := PolygonMode_Line |} format2 q].


(** The global session is created, the session is not. *)
Definition no_slang_session_world : World :=
  sample_world (0%Z, 11%N) ((-2)%Z, nullptr) None
    (nullptr, None) (fun _ => (nullptr, None))
    (0%Z, 16%N, None) (0%Z, 100%N, None) None
    (fun _ => (0%Z, None, None))
    (1680%Z, 720%Z).

(** The window is minimised: its framebuffer has no width. *)
Definition minimised_world : World :=
  sample_world (0%Z, 11%N) (0%Z, 12%N) (Some "shader text"%string)
    (13%N, None) (fun _ => (14%N, None))
    (0%Z, 16%N, None) (0%Z, 100%N, None) None
    (fun _ => (0%Z, Some sample_code, None))
    (0%Z, 720%Z).

(** A compiler whose last compilation left a text behind. *)
Definition used_compiler : SlangCompiler :=
  {| globalSession := 11%N; session := 12%N;
     initialized := true; lastDiagnostics := "stale text" |}.

(** Further runs on the sample worlds. *)
Definition sample_initialize_failed : bool * SlangCompiler * History :=
  initialize no_slang_session_world SLANG_SPIRV SlangCompiler_new [].

Definition sample_initialize_retry : bool * SlangCompiler * History :=
  initialize healthy_world SLANG_SPIRV (snd (fst sample_initialize_failed)) [].


Definition sample_ctor (w : World) : unit * App.WindowApp * History :=
  App.WindowApp_ctor w "Kholst" App.WIDTH App.HEIGHT App.WindowApp_default [].


(** ** The history against the world *)

(** The answer recorded with a call is the one the world gives to that call
    after the history [h]. *)
Definition world_answer (w : World) (h : History) (e : Event) : Prop :=
  match e with
  | EvCreateGlobalSession res => res = slang_createGlobalSession w h
  | EvFindProfile gs name res => res = slang_findProfile w h gs name
  | EvCreateSession gs target profile res =>
      res = slang_createSession w h gs target profile
  | EvLoadModule s path res => res = slang_loadModule w h s path
  | EvFindAndCheckEntryPoint m name stage res =>
      res = slang_findAndCheckEntryPoint w h m name stage
  | EvCreateCompositeComponentType s components res =>
      res = slang_createCompositeComponentType w h s components
  | EvLink composed res => res = slang_link w h composed
  | EvGetLayout linked res => res = slang_getLayout w h linked
  | EvGetEntryPointCode linked i j res =>
      res = slang_getEntryPointCode w h linked i j
  | EvIfstream path res => res = std_ifstream w h path
  | EvInitWindow name width height res =>
      res = lvk_initWindow w h name width height
  | EvCreateVulkanContext win width height res =>
      res = lvk_createVulkanContextWithSwapchain w h win width height
  | EvCreateShaderModule code size stage name res =>
      res = lvk_createShaderModule w h code size stage name
  | EvGetSwapchainFormat res => res = lvk_getSwapchainFormat w h
  | EvCreateRenderPipeline desc format res =>
      res = lvk_createRenderPipeline w h desc format
  | EvWindowShouldClose res => res = glfwWindowShouldClose w h
  | EvGetFramebufferSize res => res = glfwGetFramebufferSize w h
  | EvGetTime res => res = glfwGetTime w h
  | EvGetCurrentSwapchainTexture res =>
      res = lvk_getCurrentSwapchainTexture w h
  | _ => True
  end.

(** The calls [evs], made one after the other from the history [h], each
    carry the answer of the world [w]. *)
Fixpoint answered (w : World) (h : History) (evs : list Event) : Prop :=
  match evs with
  | [] => True
  | e :: rest => world_answer w h e /\ answered w (h ++ [e]) rest
  end.

Definition is_close_query (e : Event) : bool :=
  match e with EvWindowShouldClose _ => true | _ => false end.

(** The calls of one iteration of the render loop: the window does not ask
    to close, the events are polled, the framebuffer size is read, and what
    follows, up to the next loop test, is nothing when a dimension is zero
    and renders the cube twice otherwise. *)
Definition iteration_events (a : App.WindowApp) (chunk : list Event) : Prop :=
  exists width height body,
    chunk = EvWindowShouldClose false :: EvPollEvents
              :: EvGetFramebufferSize (width, height) :: body
    /\ filter is_close_query body = []
    /\ (width = 0%Z \/ height = 0%Z -> body = [])
    /\ (width <> 0%Z -> height <> 0%Z -> renders_cube_twice a body).

(** The calls [evs] of the render loop observed for [fuel] iterations: a
    sequence of iterations, one after the other, which is [fuel] long when
    the loop was not left, and shorter and followed by the one loop test
    answered with [true] when it was. *)
Definition loop_history (fuel : nat) (closed : bool) (a : App.WindowApp)
    (evs : list Event) : Prop :=
  exists iterations,
    Forall (iteration_events a) iterations
    /\ ((closed = true
         /\ evs = List.concat iterations ++ [EvWindowShouldClose true]
         /\ List.length iterations < fuel)
        \/ (closed = false
            /\ evs = List.concat iterations
            /\ List.length iterations = fuel)).

(** The module loads with a warning, the entry point is found with a note,
    and everything else succeeds without a text. *)
Definition warning_world : World :=
  sample_world (0%Z, 11%N) (0%Z, 12%N) (Some "shader text"%string)
    (13%N, Some "warning: W1"%string)
    (fun _ => (14%N, Some "note: N2"%string))
    (0%Z, 16%N, None) (0%Z, 100%N, None) None
    (fun _ => (0%Z, Some sample_code, None))
    (1680%Z, 720%Z).

Definition sample_warning : CompileResult * SlangCompiler * History :=
  compileToSPIRV warning_world sample_path "cubeVertex" SLANG_STAGE_VERTEX
    [] "" ready_compiler [].

(** ** Proofs *)

(** *** Unfolding the monad *)

Ltac unfold_monad :=
  cbv beta iota zeta delta
    [bind ret this modify extern emit
     assign_diagnostics append_diagnostics] in *.

(** Case analysis on the next answer of the outside world. *)
Ltac break_match :=
  match goal with
  | |- context [match ?x with _ => _ end] =>
      lazymatch x with
      | context [match _ with _ => _ end] => fail
      | _ =>
          tryif is_var x then
            lazymatch type of x with
            | prod _ _ => destruct x
            end
          else destruct x eqn:?
      end
  end.

Ltac run_cases := unfold_monad; repeat (break_match; cbn beta iota zeta).

(** C8: a compile call on a compiler that is not initialised returns [false]
    with the message "Compiler not initialized", leaves every output buffer as
    it was, and touches neither the compiler nor the outside world. *)
Theorem compile_before_initialize :
  forall (w : World) (c : SlangCompiler) (h : History)
         (path entry ventry fentry : string) (stage : SlangStage)
         (out outV outF : vector) (err : string),
    isInitialized c = false ->
    compileToSPIRV w path entry stage out err c h
      = (false, out, "Compiler not initialized"%string, c, h)
    /\ compileVertexFragment w path ventry fentry outV outF err c h
      = (false, outV, outF, "Compiler not initialized"%string, c, h).
Proof.
  intros w c h path entry ventry fentry stage out outV outF err Hinit.
  unfold isInitialized in Hinit.
  unfold compileToSPIRV, compileVertexFragment.
  unfold_monad. rewrite Hinit. simpl. split; reflexivity.
Qed.

(** *** Strings *)

Lemma string_app_assoc (a b c : string) :
  ((a ++ b) ++ c = a ++ (b ++ c))%string.
Proof. induction a as [|x a IH]; simpl; [reflexivity | now rewrite IH]. Qed.

Lemma string_app_nil_r (a : string) : (a ++ "" = a)%string.
Proof. induction a as [|x a IH]; simpl; [reflexivity | now rewrite IH]. Qed.

Lemma string_length_app (a b : string) :
  String.length (a ++ b) = String.length a + String.length b.
Proof. induction a as [|x a IH]; simpl; [reflexivity | now rewrite IH]. Qed.

Lemma is_suffix_refl d : is_suffix d d.
Proof. exists ""%string. reflexivity. Qed.

Lemma is_suffix_app d a b : is_suffix d b -> is_suffix d (a ++ b).
Proof.
  intros [pre ->]. exists (a ++ pre)%string. symmetry. apply string_app_assoc.
Qed.

Lemma contains_refl d : contains d d.
Proof. exists ""%string, ""%string. simpl. now rewrite string_app_nil_r. Qed.

Lemma contains_app_l d a b : contains d a -> contains d (a ++ b).
Proof.
  intros (pre & post & ->). exists pre, (post ++ b)%string.
  now rewrite !string_app_assoc.
Qed.

Lemma contains_app_r d a b : contains d b -> contains d (a ++ b).
Proof.
  intros (pre & post & ->). exists (a ++ pre)%string, post.
  now rewrite !string_app_assoc.
Qed.

Lemma contains_length d s : contains d s -> String.length d <= String.length s.
Proof. intros (pre & post & ->). rewrite !string_length_app. lia. Qed.

(** *** Bytes and words *)

Lemma byteZ_range b : (0 <= byteZ b < 256)%Z.
Proof.
  unfold byteZ. pose proof (Byte.to_N_bounded b). lia.
Qed.

Lemma byte_of_Z_byteZ b : byte_of_Z (byteZ b) = b.
Proof.
  unfold byte_of_Z. pose proof (byteZ_range b) as R.
  rewrite Z.mod_small by lia. unfold byteZ. rewrite N2Z.id.
  now rewrite Byte.of_to_N.
Qed.

Lemma byte_of_Z_low b q : byte_of_Z (byteZ b + 256 * q) = b.
Proof.
  unfold byte_of_Z. pose proof (byteZ_range b) as R.
  replace (byteZ b + 256 * q)%Z with (byteZ b + q * 256)%Z by lia.
  rewrite Z.mod_add by lia. rewrite Z.mod_small by lia.
  unfold byteZ. rewrite N2Z.id. now rewrite Byte.of_to_N.
Qed.

Lemma bytes_of_word_of_bytes b0 b1 b2 b3 :
  bytes_of_word (word_of_bytes b0 b1 b2 b3) = [b0; b1; b2; b3].
Proof.
  unfold bytes_of_word, word_of_bytes.
  pose proof (byteZ_range b0). pose proof (byteZ_range b1).
  pose proof (byteZ_range b2). pose proof (byteZ_range b3).
  set (x1 := (byteZ b1 + 256 * (byteZ b2 + 256 * byteZ b3))%Z).
  assert (E1 : ((byteZ b0 + 256 * x1) / 256 = x1)%Z).
  { rewrite Z.add_comm, Z.mul_comm, Z.div_add_l by lia.
    rewrite Z.div_small by lia. lia. }
  set (x2 := (byteZ b2 + 256 * byteZ b3)%Z) in *.
  assert (E2 : ((byteZ b0 + 256 * x1) / 65536 = x2)%Z).
  { change 65536%Z with (256 * 256)%Z. rewrite <- Z.div_div by lia.
    rewrite E1. subst x1. rewrite Z.add_comm, Z.mul_comm, Z.div_add_l by lia.
    rewrite Z.div_small by lia. lia. }
  assert (E3 : ((byteZ b0 + 256 * x1) / 16777216 = byteZ b3)%Z).
  { change 16777216%Z with (65536 * 256)%Z. rewrite <- Z.div_div by lia.
    rewrite E2. subst x2. rewrite Z.add_comm, Z.mul_comm, Z.div_add_l by lia.
    rewrite Z.div_small by lia. lia. }
  rewrite E1, E2, E3. subst x1 x2.
  now rewrite !byte_of_Z_low, byte_of_Z_byteZ.
Qed.

Lemma words_of_bytes_whole (n : nat) :
  forall data,
    List.length data = 4 * n ->
    List.length (words_of_bytes data) = n
    /\ bytes_of_words (words_of_bytes data) = data.
Proof.
  induction n as [|n IH]; intros data Hlen.
  - destruct data; [split; reflexivity | discriminate].
  - destruct data as [|b0 [|b1 [|b2 [|b3 rest]]]]; simpl in Hlen; try lia.
    destruct (IH rest) as [L B]; [lia|].
    cbn [words_of_bytes List.length]. split; [now rewrite L|].
    unfold bytes_of_words in *. cbn [flat_map].
    rewrite bytes_of_word_of_bytes, B. reflexivity.
Qed.

Lemma multiple_of_4 (n : nat) : n mod 4 = 0 -> n = 4 * (n / 4).
Proof.
  intros H. pose proof (Nat.div_mod_eq n 4). lia.
Qed.

Lemma memcpy_resize (out : vector) (data : list Byte.byte) :
  List.length data mod 4 = 0 ->
  memcpy (resize (List.length data / 4) out) data (List.length data)
    = words_of_bytes data.
Proof.
  intros H. unfold memcpy, resize.
  rewrite firstn_all. rewrite skipn_all2; [apply app_nil_r|].
  rewrite length_app, repeat_length.
  pose proof (firstn_le_length (List.length data / 4) out).
  destruct (Nat.le_gt_cases (List.length data / 4) (List.length out)).
  - rewrite firstn_length_le by lia. lia.
  - rewrite firstn_all2 by lia. lia.
Qed.

(** *** What a compile call leaves untouched *)

Lemma session_assign_blob b c : session (assign_blob b c) = session c.
Proof. destruct b; reflexivity. Qed.

Lemma session_append_blob b c : session (append_blob b c) = session c.
Proof. destruct b; reflexivity. Qed.

Lemma initialized_assign_blob b c :
  initialized (assign_blob b c) = initialized c.
Proof. destruct b; reflexivity. Qed.

Lemma initialized_append_blob b c :
  initialized (append_blob b c) = initialized c.
Proof. destruct b; reflexivity. Qed.

Lemma globalSession_assign_blob b c :
  globalSession (assign_blob b c) = globalSession c.
Proof. destruct b; reflexivity. Qed.

Lemma globalSession_append_blob b c :
  globalSession (append_blob b c) = globalSession c.
Proof. destruct b; reflexivity. Qed.

Lemma session_set_lastDiagnostics s c :
  session (set_lastDiagnostics s c) = session c.
Proof. reflexivity. Qed.

Lemma initialized_set_lastDiagnostics s c :
  initialized (set_lastDiagnostics s c) = initialized c.
Proof. reflexivity. Qed.

Lemma globalSession_set_lastDiagnostics s c :
  globalSession (set_lastDiagnostics s c) = globalSession c.
Proof. reflexivity. Qed.

Create Rewrite HintDb fields.
#[local] Hint Rewrite
  session_assign_blob session_append_blob
  initialized_assign_blob initialized_append_blob
  globalSession_assign_blob globalSession_append_blob
  session_set_lastDiagnostics initialized_set_lastDiagnostics
  globalSession_set_lastDiagnostics : fields.

Ltac null_pointers :=
  repeat match goal with
         | H : is_null ?p = true |- _ => apply N.eqb_eq in H; subst p
         end.

(** Bring a run of [compileEntryPoint] to its leaves: one goal per path
    through the function, the result in [H]. *)
Ltac compile_paths H :=
  revert H; unfold compileEntryPoint; run_cases;
  intros H; injection H as <- <- <- <- <-;
  autorewrite with fields in *; rewrite <- ?app_assoc; cbn [app].

Lemma compileEntryPoint_frame :
  forall w path entry stage out err c h ok out' err' c' h',
    compileEntryPoint w path entry stage out err c h
      = (ok, out', err', c', h') ->
    initialized c' = initialized c /\ session c' = session c
    /\ globalSession c' = globalSession c.
Proof.
  intros * H. compile_paths H. all: auto.
Qed.

Ltac split_In H :=
  cbn [In] in H;
  repeat match goal with
         | H' : _ \/ _ |- _ => destruct H'
         | H' : False |- _ => destruct H'
         end.

Ltac break_blobs :=
  repeat match goal with
         | |- context [assign_blob ?b _] => is_var b; destruct b
         | |- context [append_blob ?b _] => is_var b; destruct b
         end;
  cbn [assign_blob append_blob append_lastDiagnostics set_lastDiagnostics
       lastDiagnostics].

Ltac captured_leaf :=
  split; [|split];
  [ cbn [last toolchain_diagnostics]; intros dtext Hd;
    try discriminate Hd; subst;
    cbn [assign_blob append_blob append_lastDiagnostics set_lastDiagnostics
         lastDiagnostics];
    auto using is_suffix_refl, is_suffix_app
  | intros ev dtext Hin Hload Hd; split_In Hin;
    subst ev; cbn in Hload, Hd; try discriminate; subst;
    break_blobs;
    auto 8 using contains_refl, contains_app_l, contains_app_r
  | intros ev dtext Hin Hload Hd Hentry; split_In Hin;
    subst ev; cbn in Hload, Hd; try discriminate; subst;
    try (specialize (Hentry _ (or_intror (or_intror (or_introl eq_refl)))
                       eq_refl);
         cbn in Hentry; subst);
    break_blobs;
    auto 8 using contains_refl, contains_app_l, contains_app_r ].

Lemma compileEntryPoint_stage :
  forall w path entry stage out err c h ok out' err' c' h',
    compileEntryPoint w path entry stage out err c h
      = (ok, out', err', c', h') ->
    exists evs, h' = h ++ evs
                /\ stage_compiled (session c) path entry stage evs c'.
Proof.
  intros * H. compile_paths H.
  all: eexists; (split; [reflexivity|]); split; [reflexivity|split].
  all: null_pointers.
  all: try solve [eauto 15 using performs].
  all: captured_leaf.
Qed.


Lemma orb_false_both a b : a || b = false -> a = false /\ b = false.
Proof. destruct a, b; simpl; intuition congruence. Qed.

Lemma prefix_nil (s : string) : String.prefix "" s = true.
Proof. destruct s; reflexivity. Qed.

Ltac name_failing_step :=
  split; [discriminate|];
  match goal with
  | |- exists before e label, ?evs = _ /\ _ =>
      exists (removelast evs), (last evs EvPollEvents)
  end;
  cbn [removelast last];
  first [ eexists; split; [reflexivity|];
          split; [left; reflexivity | cbn; solve [auto using prefix_nil]]
        | eexists; split; [reflexivity|];
          split; [right; left; reflexivity | reflexivity] ].

(** The last call of a finished path against its description as an
    extraction. *)
Ltac last_call H :=
  apply (f_equal (fun l => last l EvPollEvents)) in H;
  rewrite last_last in H; cbn [last] in H.

Ltac refute_extraction :=
  let data := fresh "data" in
  let before := fresh "before" in
  let l := fresh "l" in
  let r := fresh "r" in
  let d := fresh "d" in
  let Hevs := fresh "Hevs" in
  let Hr := fresh "Hr" in
  let Hsize := fresh "Hsize" in
  intros data (before & l & r & d & Hevs & Hr) Hsize;
  last_call Hevs;
  solve [ discriminate Hevs
        | injection Hevs as; subst;
          first [ split; reflexivity
                | exfalso;
                  match goal with
                  | H : SLANG_FAILED _ || _ = true |- _ =>
                      rewrite Hr in H; discriminate H
                  | H : negb (Nat.eqb _ 0) = false |- _ =>
                      apply negb_false_iff, Nat.eqb_eq in H;
                      apply Hsize; exact H
                  end ] ].

Lemma compileEntryPoint_outcome :
  forall w path entry stage out err c h ok out' err' c' h',
    compileEntryPoint w path entry stage out err c h
      = (ok, out', err', c', h') ->
    exists evs,
      h' = h ++ evs
      /\ (ok = true ->
          exists data,
            code_extracted evs data
            /\ List.length data mod 4 = 0
            /\ out' = words_of_bytes data /\ err' = err)
      /\ (ok = false -> out' = out /\ names_failing_step evs err')
      /\ (forall data,
            code_extracted evs data -> List.length data mod 4 <> 0 ->
            ok = false /\ err' = invalid_size_message).
Proof.
  intros * H. compile_paths H.
  all: eexists; (split; [reflexivity|]).
  all: split; [|split].
  all: try (intros Hok; discriminate Hok).
  all: try solve [intros _; split; [reflexivity | name_failing_step]].
  all: try refute_extraction.
  all: intros _;
    match goal with
    | H : SLANG_FAILED ?r || blob_is_null ?b = false |- _ =>
        apply orb_false_both in H; destruct H as [Hr Hb];
        destruct b as [data|]; [|discriminate Hb]
    end;
    match goal with
    | H : negb (Nat.eqb _ 0) = false |- _ =>
        apply negb_false_iff, Nat.eqb_eq in H;
        unfold getBufferSize, getBufferPointer in *
    end;
    exists data; split; [|split; [assumption|split; [|reflexivity]]].
  all: try (apply memcpy_resize; assumption).
  all: unfold code_extracted;
    match goal with
    | |- exists before l r d, ?evs = _ /\ _ =>
        exists (removelast evs); cbn [removelast];
        do 3 eexists; split; [reflexivity | assumption]
    end.
Qed.

(** *** Histories answered by the world *)

Lemma answered_app (w : World) (evs1 : list Event) :
  forall h evs2,
    answered w h evs1 -> answered w (h ++ evs1) evs2 ->
    answered w h (evs1 ++ evs2).
Proof.
  induction evs1 as [|e evs1 IH]; intros h evs2 H1 H2.
  - now rewrite app_nil_r in H2.
  - cbn [app answered] in *. destruct H1 as [He H1]. split; [exact He|].
    apply IH; [exact H1|]. rewrite <- app_assoc. exact H2.
Qed.

Ltac answers :=
  cbn [answered world_answer];
  rewrite <- ?app_assoc in *; cbn [app] in *;
  repeat split; solve [reflexivity | symmetry; assumption | assumption].

(** *** The two public compile functions over [compileEntryPoint] *)

Lemma compileToSPIRV_initialized :
  forall w path entry stage out err c h,
    initialized c = true ->
    compileToSPIRV w path entry stage out err c h
      = compileEntryPoint w path entry stage out err c h.
Proof.
  intros * Hinit. unfold compileToSPIRV, bind, this.
  rewrite Hinit. reflexivity.
Qed.

Lemma compileToSPIRV_cases :
  forall w path entry stage out err c h ok out' err' c' h',
    compileToSPIRV w path entry stage out err c h
      = (ok, out', err', c', h') ->
    (initialized c = false /\ ok = false /\ out' = out
     /\ err' = "Compiler not initialized"%string /\ c' = c /\ h' = h)
    \/ (initialized c = true
        /\ compileEntryPoint w path entry stage out err c h
             = (ok, out', err', c', h')).
Proof.
  intros * H. destruct (initialized c) eqn:Hinit.
  - right. rewrite compileToSPIRV_initialized in H by assumption. auto.
  - left. unfold compileToSPIRV, bind, this, ret in H. rewrite Hinit in H.
    cbn in H. injection H as <- <- <- <- <-. auto 6.
Qed.

Lemma compileVertexFragment_cases :
  forall w path ventry fentry outV outF err c h ok outV' outF' err' c' h',
    compileVertexFragment w path ventry fentry outV outF err c h
      = (ok, outV', outF', err', c', h') ->
    (initialized c = false /\ ok = false /\ outV' = outV /\ outF' = outF
     /\ err' = "Compiler not initialized"%string /\ c' = c /\ h' = h)
    \/ (initialized c = true
        /\ compileEntryPoint w path ventry SLANG_STAGE_VERTEX outV err c h
             = (false, outV', err', c', h')
        /\ ok = false /\ outF' = outF)
    \/ (initialized c = true
        /\ exists errV cV hV,
             compileEntryPoint w path ventry SLANG_STAGE_VERTEX outV err c h
               = (true, outV', errV, cV, hV)
             /\ compileEntryPoint w path fentry SLANG_STAGE_FRAGMENT
                  outF errV cV hV
                = (ok, outF', err', c', h')).
Proof.
  intros * H. unfold compileVertexFragment, bind, this, ret in H.
  destruct (initialized c) eqn:Hinit; cbn [negb] in H.
  - right.
    destruct (compileEntryPoint w path ventry SLANG_STAGE_VERTEX outV err c h)
      as [[[[okV oV] eV] cV] hV] eqn:HV.
    destruct okV; cbn [negb] in H.
    + right. split; [reflexivity|]. exists eV, cV, hV.
      destruct (compileEntryPoint w path fentry SLANG_STAGE_FRAGMENT
                  outF eV cV hV) as [[[[okF oF] eF] cF] hF] eqn:HF.
      destruct okF; cbn [negb] in H; injection H as <- <- <- <- <- <-; auto.
    + left. injection H as <- <- <- <- <- <-. auto.
  - left. injection H as <- <- <- <- <- <-. auto 7.
Qed.

Lemma names_failing_step_app (evs1 evs2 : list Event) (msg : string) :
  names_failing_step evs2 msg -> names_failing_step (evs1 ++ evs2) msg.
Proof.
  intros (Hne & before & e & label & -> & Hin & Hpre). split; [assumption|].
  exists (evs1 ++ before), e, label. rewrite app_assoc. auto.
Qed.

Lemma code_extracted_nil data : ~ code_extracted [] data.
Proof.
  intros (before & l & r & d & H & _). destruct before; discriminate H.
Qed.

Lemma code_extracted_inj evs data data' :
  code_extracted evs data -> code_extracted evs data' -> data = data'.
Proof.
  intros (b1 & l1 & r1 & d1 & H1 & _) (b2 & l2 & r2 & d2 & H2 & _).
  rewrite H1 in H2. apply app_inj_tail in H2 as [_ H2]. congruence.
Qed.

(** C1, where the code departs from it: the module loads with the warning
    "warning: W1", the entry point is found with the note "note: N2", and
    every later step succeeds without a text.  The call makes the five
    pipeline steps in order and returns [true], but the text of the load step
    is not in the compiler's diagnostics string, which holds the note only:
    the entry-point step assigns the string where the composition, the link
    and the extraction append to it. *)
Theorem load_diagnostics_lost :
  result_ok sample_warning = true
  /\ steps_performed (result_history sample_warning) = pipeline
  /\ answered warning_world [] (result_history sample_warning)
  /\ In (EvLoadModule (session ready_compiler) sample_path
           (13%N, Some "warning: W1"%string))
        (result_history sample_warning)
  /\ getLastDiagnostics (result_compiler sample_warning) = "note: N2"%string
  /\ ~ contains "warning: W1"
         (getLastDiagnostics (result_compiler sample_warning)).
Proof.
  split; [reflexivity|].
  split; [reflexivity|].
  split; [cbn; repeat split|].
  split; [cbn; auto|].
  split; [reflexivity|].
  intros Hc. apply contains_length in Hc. cbn in Hc. lia.
Qed.

(** C3: a compile call that returns [true] extracted a code blob whose size
    is a multiple of four bytes, and the output vector holds exactly
    [size / 4] words whose bytes are those of the blob; a call that extracted
    a blob whose size is not a multiple of four returns [false] with the
    message "Invalid SPIRV size (not multiple of 4 bytes)".  The same holds
    for each of the two stages of [compileVertexFragment]. *)
Theorem spirv_blob_whole_words :
  forall (w : World) (c : SlangCompiler) (h : History)
         (path entry ventry fentry : string) (stage : SlangStage)
         (out outV outF : vector) (err : string),
    (forall ok out' err' c' h',
        compileToSPIRV w path entry stage out err c h
          = (ok, out', err', c', h') ->
        exists evs,
          h' = h ++ evs
          /\ (ok = true ->
              exists data,
                code_extracted evs data
                /\ List.length data mod 4 = 0
                /\ List.length out' = List.length data / 4
                /\ bytes_of_words out' = data)
          /\ (forall data,
                code_extracted evs data -> List.length data mod 4 <> 0 ->
                ok = false /\ err' = invalid_size_message))
    /\ (forall ok outV' outF' err' c' h',
        compileVertexFragment w path ventry fentry outV outF err c h
          = (ok, outV', outF', err', c', h') ->
        exists evsV evsF,
          h' = h ++ evsV ++ evsF
          /\ (ok = true ->
              exists dataV dataF,
                code_extracted evsV dataV /\ code_extracted evsF dataF
                /\ List.length dataV mod 4 = 0
                /\ List.length dataF mod 4 = 0
                /\ List.length outV' = List.length dataV / 4
                /\ List.length outF' = List.length dataF / 4
                /\ bytes_of_words outV' = dataV
                /\ bytes_of_words outF' = dataF)
          /\ (forall data,
                code_extracted evsV data \/ code_extracted evsF data ->
                List.length data mod 4 <> 0 ->
                ok = false /\ err' = invalid_size_message)).
Proof.
  intros. split.
  - intros * H.
    apply compileToSPIRV_cases in H
      as [(_ & -> & _ & _ & _ & ->) | (_ & H)].
    + exists []. rewrite app_nil_r. split; [reflexivity|].
      split; [discriminate|]. intros data Hx. now apply code_extracted_nil in Hx.
    + apply compileEntryPoint_outcome in H as (evs & -> & Htrue & _ & Hbad).
      exists evs. split; [reflexivity|]. split; [|assumption].
      intros Hok. destruct (Htrue Hok) as (data & Hx & Hm & -> & _).
      exists data. 
      destruct (words_of_bytes_whole (List.length data / 4) data) as [L B];
        [now apply multiple_of_4|]. auto.
  - intros * H.
    apply compileVertexFragment_cases in H
      as [(_ & -> & _ & _ & _ & _ & ->)
         | [(_ & HV & -> & _) | (_ & errV & cV & hV & HV & HF)]].
    + exists [], []. split; [now rewrite app_nil_r|].
      split; [discriminate|].
      intros data [Hx|Hx]; now apply code_extracted_nil in Hx.
    + apply compileEntryPoint_outcome in HV as (evsV & -> & _ & _ & Hbad).
      exists evsV, []. split; [now rewrite app_nil_r|].
      split; [discriminate|].
      intros data [Hx|Hx] Hm; [now destruct (Hbad data Hx Hm)|].
      now apply code_extracted_nil in Hx.
    + apply compileEntryPoint_outcome in HV as (evsV & -> & HtV & _ & HbV).
      apply compileEntryPoint_outcome in HF as (evsF & -> & HtF & _ & HbF).
      exists evsV, evsF. split; [now rewrite app_assoc|].
      destruct (HtV eq_refl) as (dataV & HxV & HmV & -> & _).
      split.
      * intros Hok. destruct (HtF Hok) as (dataF & HxF & HmF & -> & _).
        exists dataV, dataF.
        destruct (words_of_bytes_whole (List.length dataV / 4) dataV)
          as [LV BV]; [now apply multiple_of_4|].
        destruct (words_of_bytes_whole (List.length dataF / 4) dataF)
          as [LF BF]; [now apply multiple_of_4|].
        auto 10.
      * intros data [Hx|Hx] Hm; [|exact (HbF data Hx Hm)].
        destruct (HbV data Hx Hm) as [Hfalse _]. discriminate Hfalse.
Qed.


(** C7: [compileVertexFragment] compiles the vertex entry point first; when
    that compilation returns [false] the function returns [false] with what
    the vertex compilation left behind and nothing more: no further call is
    made, so the fragment entry point is not compiled, and the fragment
    buffer is the one passed in. *)
Theorem compileVertexFragment_short_circuit :
  forall (w : World) (c : SlangCompiler) (h : History)
         (path ventry fentry : string) (outV outF : vector) (err : string)
         outV1 err1 c1 h1,
    isInitialized c = true ->
    compileEntryPoint w path ventry SLANG_STAGE_VERTEX outV err c h
      = (false, outV1, err1, c1, h1) ->
    compileVertexFragment w path ventry fentry outV outF err c h
      = (false, outV1, outF, err1, c1, h1).
Proof.
  intros * Hinit HV. unfold isInitialized in Hinit.
  unfold compileVertexFragment, bind, this, ret. cbv beta.
  rewrite Hinit. cbn [negb]. rewrite HV. reflexivity.
Qed.

(** C9: once [initialize] has returned [true] the compiler is initialised,
    and on an initialised compiler [initialize], with any target, returns
    [true] at once: no global session or session is created, no call at all
    is made, and the object is left exactly as it was, so it stays
    initialised; the compile functions keep it initialised as well. *)
Theorem initialize_idempotent :
  forall (w : World),
    (forall target c h c' h',
        initialize w target c h = (true, c', h') -> isInitialized c' = true)
    /\ (forall target c h,
           isInitialized c = true ->
           initialize w target c h = (true, c, h))
    /\ (forall path entry stage out err c h ok out' err' c' h',
           isInitialized c = true ->
           compileToSPIRV w path entry stage out err c h
             = (ok, out', err', c', h') ->
           isInitialized c' = true)
    /\ (forall path ventry fentry outV outF err c h ok outV' outF' err' c' h',
           isInitialized c = true ->
           compileVertexFragment w path ventry fentry outV outF err c h
             = (ok, outV', outF', err', c', h') ->
           isInitialized c' = true).
Proof.
  intros w. unfold isInitialized. repeat split.
  - intros * H. revert H. unfold initialize. run_cases.
    all: intros H; try discriminate H; injection H as <- <-; auto.
  - intros * Hinit. unfold initialize, bind, this, ret. cbv beta.
    now rewrite Hinit.
  - intros * Hinit H.
    rewrite compileToSPIRV_initialized in H by assumption.
    apply compileEntryPoint_frame in H as (Hi & _). congruence.
  - intros * Hinit H.
    apply compileVertexFragment_cases in H
      as [(Hno & _) | [(_ & HV & _) | (_ & errV & cV & hV & HV & HF)]].
    + congruence.
    + apply compileEntryPoint_frame in HV as (Hi & _). congruence.
    + apply compileEntryPoint_frame in HV as (HiV & _).
      apply compileEntryPoint_frame in HF as (HiF & _). congruence.
Qed.

(** C10: whenever [initialize] returns [false], [lastDiagnostics] has been
    assigned a message that is not empty and names the call that failed, the
    last one made; whenever [compileToSPIRV] or [compileVertexFragment]
    returns [false], [outErrorMsg] has been assigned such a message, or the
    message "Compiler not initialized" when no call was made at all. *)
Theorem failure_names_the_step :
  forall (w : World),
    (forall target c h c' h',
        initialize w target c h = (false, c', h') ->
        exists evs,
          h' = h ++ evs /\ names_failing_step evs (lastDiagnostics c'))
    /\ (forall path entry stage out err c h out' err' c' h',
           compileToSPIRV w path entry stage out err c h
             = (false, out', err', c', h') ->
           (isInitialized c = false /\ h' = h
            /\ err' = "Compiler not initialized"%string)
           \/ exists evs, h' = h ++ evs /\ names_failing_step evs err')
    /\ (forall path ventry fentry outV outF err c h outV' outF' err' c' h',
           compileVertexFragment w path ventry fentry outV outF err c h
             = (false, outV', outF', err', c', h') ->
           (isInitialized c = false /\ h' = h
            /\ err' = "Compiler not initialized"%string)
           \/ exists evs, h' = h ++ evs /\ names_failing_step evs err').
Proof.
  intros w. unfold isInitialized. repeat split.
  - intros * H. revert H. unfold initialize. run_cases.
    all: intros H; try discriminate H; injection H as <- <-.
    all: rewrite <- ?app_assoc; cbn [app].
    all: eexists; (split; [reflexivity|]); cbn [lastDiagnostics set_lastDiagnostics].
    all: name_failing_step.
  - intros * H.
    apply compileToSPIRV_cases in H
      as [(Hno & _ & _ & -> & _ & ->) | (_ & H)]; [auto|].
    right. apply compileEntryPoint_outcome in H as (evs & -> & _ & Hf & _).
    exists evs. split; [reflexivity|]. now apply Hf.
  - intros * H.
    apply compileVertexFragment_cases in H
      as [(Hno & _ & _ & _ & -> & _ & ->)
         | [(_ & HV & _) | (_ & errV & cV & hV & HV & HF)]]; [auto|right..].
    + apply compileEntryPoint_outcome in HV as (evs & -> & _ & Hf & _).
      exists evs. split; [reflexivity|]. now apply Hf.
    + apply compileEntryPoint_outcome in HV as (evsV & -> & _).
      apply compileEntryPoint_outcome in HF as (evsF & -> & _ & Hf & _).
      exists (evsV ++ evsF). rewrite app_assoc. split; [reflexivity|].
      apply names_failing_step_app. now apply Hf.
Qed.

(** *** The model on the sample worlds *)

Lemma compile_before_initialize_witness :
  isInitialized SlangCompiler_new = false
  /\ compileToSPIRV healthy_world sample_path "cubeVertex" SLANG_STAGE_VERTEX
       [1%Z] "" SlangCompiler_new []
     = (false, [1%Z], "Compiler not initialized"%string, SlangCompiler_new, []).
Proof.
  split; [reflexivity|].
  exact (proj1 (compile_before_initialize healthy_world SlangCompiler_new []
                  sample_path "cubeVertex" "cubeVertex" "cubeFragment"
                  SLANG_STAGE_VERTEX [1%Z] [] [] "" eq_refl)).
Defined.

Lemma spirv_blob_whole_words_witness :
  (exists evs,
      result_history sample_compile = [] ++ evs
      /\ exists data,
           code_extracted evs data
           /\ List.length data mod 4 = 0
           /\ List.length (result_out sample_compile) = List.length data / 4
           /\ bytes_of_words (result_out sample_compile) = data)
  /\ result_ok sample_odd_blob = false
  /\ result_err sample_odd_blob = invalid_size_message.
Proof.
  split.
  - destruct (spirv_blob_whole_words healthy_world ready_compiler []
                sample_path "cubeVertex" "cubeVertex" "cubeFragment"
                SLANG_STAGE_VERTEX [] [] [] "") as [H _].
    destruct (H true (result_out sample_compile) (result_err sample_compile)
                (result_compiler sample_compile)
                (result_history sample_compile) eq_refl)
      as (evs & Hh & Htrue & _).
    exists evs. split; [exact Hh|]. exact (Htrue eq_refl).
  - destruct (spirv_blob_whole_words odd_blob_world ready_compiler []
                sample_path "cubeVertex" "cubeVertex" "cubeFragment"
                SLANG_STAGE_VERTEX [] [] [] "") as [H _].
    destruct (H (result_ok sample_odd_blob) (result_out sample_odd_blob)
                (result_err sample_odd_blob)
                (result_compiler sample_odd_blob)
                (result_history sample_odd_blob) eq_refl)
      as (evs & Hh & _ & Hbad).
    apply (Hbad [Byte.x03; Byte.x02; Byte.x23]).
    + cbn in Hh. subst evs. unfold code_extracted.
      match goal with
      | |- exists before l r d, ?evs = _ /\ _ => exists (removelast evs)
      end.
      cbn [removelast]. do 3 eexists. split; reflexivity.
    + cbn. discriminate.
Defined.


Lemma compileVertexFragment_short_circuit_witness :
  compileVertexFragment missing_entry_world sample_path
    "cubeVertex" "cubeFragment" [1%Z] [7%Z] "" ready_compiler []
  = (false, result_out sample_missing_entry, [7%Z],
     result_err sample_missing_entry, result_compiler sample_missing_entry,
     result_history sample_missing_entry).
Proof.
  apply compileVertexFragment_short_circuit; reflexivity.
Defined.

Lemma initialize_idempotent_witness :
  initialize missing_entry_world (SLANG_TARGET_OTHER 2) ready_compiler
    [EvPollEvents]
  = (true, ready_compiler, [EvPollEvents]).
Proof.
  apply (proj1 (proj2 (initialize_idempotent missing_entry_world))).
  reflexivity.
Defined.

Lemma failure_names_the_step_witness :
  (exists evs,
      snd (initialize no_session_world SLANG_SPIRV SlangCompiler_new [])
        = [] ++ evs
      /\ names_failing_step evs
           (lastDiagnostics
              (snd (fst (initialize no_session_world SLANG_SPIRV
                           SlangCompiler_new [])))))
  /\ (exists evs,
         result_history sample_odd_blob = [] ++ evs
         /\ names_failing_step evs (result_err sample_odd_blob)).
Proof.
  destruct (failure_names_the_step no_session_world) as (Hinit & _).
  destruct (failure_names_the_step odd_blob_world) as (_ & Hcompile & _).
  split.
  - apply Hinit with (target := SLANG_SPIRV) (c := SlangCompiler_new).
    reflexivity.
  - destruct (Hcompile sample_path "cubeVertex"%string SLANG_STAGE_VERTEX
                [] ""%string ready_compiler [] (result_out sample_odd_blob)
                (result_err sample_odd_blob)
                (result_compiler sample_odd_blob)
                (result_history sample_odd_blob) eq_refl)
      as [(Hno & _) | Hyes].
    + discriminate Hno.
    + exact Hyes.
Defined.

(** C2, where the code departs from it: the module loads with the warning
    "warning: W1" and the entry point is then not found, with the text
    "error: E2".  The call returns [false], and the diagnostics string holds
    the second text only: the first has been overwritten, not appended to. *)
Theorem entry_point_diagnostics_overwrite :
  result_ok sample_missing_entry = false
  /\ In (EvLoadModule (session ready_compiler) sample_path
           (13%N, Some "warning: W1"%string))
        (result_history sample_missing_entry)
  /\ In (EvFindAndCheckEntryPoint 13%N "cubeVertex" SLANG_STAGE_VERTEX
           (nullptr, Some "error: E2"%string))
        (result_history sample_missing_entry)
  /\ getLastDiagnostics (result_compiler sample_missing_entry)
     = "error: E2"%string
  /\ ~ contains "warning: W1"
         (getLastDiagnostics (result_compiler sample_missing_entry)).
Proof.
  split; [reflexivity|].
  split; [cbn; auto|].
  split; [cbn; auto|].
  split; [reflexivity|].
  intros Hc. apply contains_length in Hc. cbn in Hc. lia.
Qed.

(** *** Further properties of the compiler adapter *)

Lemma initialize_outcome :
  forall w target c h ok c' h',
    initialize w target c h = (ok, c', h') ->
    isInitialized c' = ok
    /\ (ok = true -> lastDiagnostics c' = lastDiagnostics c).
Proof.
  intros * H. unfold isInitialized. revert H. unfold initialize. run_cases.
  all: intros H; injection H as <- <- <-.
  all: split; [auto | intros Hok; try discriminate Hok; reflexivity].
Qed.

(** X1: what [initialize] returns is what [isInitialized] answers
    afterwards: a failed [initialize] leaves the compiler uninitialised, a
    successful one initialised. *)
Theorem initialize_returns_isInitialized :
  forall (w : World) (target : SlangCompileTarget) (c : SlangCompiler)
         (h : History) ok c' h',
    initialize w target c h = (ok, c', h') ->
    isInitialized c' = ok.
Proof.
  intros * H. exact (proj1 (initialize_outcome _ _ _ _ H)).
Qed.

(** X2: a successful [initialize] does not touch [lastDiagnostics]: the text
    of an earlier failed attempt, or of an earlier compilation, is still what
    [getLastDiagnostics] returns. *)
Theorem initialize_success_keeps_diagnostics :
  forall (w : World) (target : SlangCompileTarget) (c : SlangCompiler)
         (h : History) c' h',
    initialize w target c h = (true, c', h') ->
    getLastDiagnostics c' = getLastDiagnostics c.
Proof.
  intros * H. exact (proj2 (initialize_outcome _ _ _ _ H) eq_refl).
Qed.

(** X3: on a compiler that is not initialised, [initialize] first creates a
    global session and stops there when that fails; otherwise it looks up the
    profile "spirv_1_5" and creates a session for the requested target with
    that profile, succeeds exactly when that creation does, and stores the
    two objects. *)
Theorem initialize_calls :
  forall (w : World) (target : SlangCompileTarget) (c : SlangCompiler)
         (h : History) ok c' h',
    isInitialized c = false ->
    initialize w target c h = (ok, c', h') ->
    exists r1 gs,
      globalSession c' = gs
      /\ ((SLANG_FAILED r1 = true
           /\ h' = h ++ [EvCreateGlobalSession (r1, gs)]
           /\ ok = false /\ session c' = session c)
          \/ (SLANG_FAILED r1 = false
              /\ exists profile r2 s,
                   h' = h ++ [EvCreateGlobalSession (r1, gs);
                              EvFindProfile gs "spirv_1_5" profile;
                              EvCreateSession gs target profile (r2, s)]
                   /\ ok = negb (SLANG_FAILED r2)
                   /\ session c' = s)).
Proof.
  intros * Hinit H. unfold isInitialized in Hinit.
  revert H. unfold initialize. run_cases.
  all: intros H; injection H as <- <- <-; try congruence.
  all: rewrite <- ?app_assoc; cbn [app].
  all: match goal with
       | Hq : slang_createGlobalSession _ _ = (?r, ?g) |- _ => exists r, g
       end; (split; [reflexivity|]).
  - left. auto.
  - right. split; [assumption|]. do 3 eexists.
    split; [reflexivity|]. rewrite Heqb1. auto.
  - right. split; [assumption|]. do 3 eexists.
    split; [reflexivity|]. rewrite Heqb1. auto.
Qed.

(** X4: after a failed [initialize] every compile call is refused: it
    returns [false] with "Compiler not initialized", makes no call, and
    leaves the buffers and the compiler, with the failure text of
    [initialize] in it, as they are. *)
Theorem compile_refused_after_failed_initialize :
  forall (w w' : World) (target : SlangCompileTarget) (c : SlangCompiler)
         (h : History) c' h' (h2 : History)
         (path entry ventry fentry : string) (stage : SlangStage)
         (out outV outF : vector) (err : string),
    initialize w target c h = (false, c', h') ->
    compileToSPIRV w' path entry stage out err c' h2
      = (false, out, "Compiler not initialized"%string, c', h2)
    /\ compileVertexFragment w' path ventry fentry outV outF err c' h2
       = (false, outV, outF, "Compiler not initialized"%string, c', h2).
Proof.
  intros * H. apply initialize_outcome in H as [Hi _].
  unfold isInitialized in Hi.
  unfold compileToSPIRV, compileVertexFragment, bind, this, ret. cbv beta.
  rewrite Hi. split; reflexivity.
Qed.

(** X5: no compile call changes the session or the global session of the
    compiler. *)
Theorem compile_keeps_sessions :
  forall (w : World) (c : SlangCompiler) (h : History)
         (path entry ventry fentry : string) (stage : SlangStage)
         (out outV outF : vector) (err : string),
    (forall ok out' err' c' h',
        compileToSPIRV w path entry stage out err c h
          = (ok, out', err', c', h') ->
        session c' = session c /\ globalSession c' = globalSession c)
    /\ (forall ok outV' outF' err' c' h',
           compileVertexFragment w path ventry fentry outV outF err c h
             = (ok, outV', outF', err', c', h') ->
           session c' = session c /\ globalSession c' = globalSession c).
Proof.
  intros. split.
  - intros * H.
    apply compileToSPIRV_cases in H as [(_ & _ & _ & _ & -> & _) | (_ & H)].
    + auto.
    + apply compileEntryPoint_frame in H as (_ & Hs & Hg). auto.
  - intros * H.
    apply compileVertexFragment_cases in H
      as [(_ & _ & _ & _ & _ & -> & _)
         | [(_ & HV & _) | (_ & errV & cV & hV & HV & HF)]].
    + auto.
    + apply compileEntryPoint_frame in HV as (_ & Hs & Hg). auto.
    + apply compileEntryPoint_frame in HV as (_ & HsV & HgV).
      apply compileEntryPoint_frame in HF as (_ & HsF & HgF).
      split; congruence.
Qed.

(** X6: [compileToSPIRV] writes exactly one of its two out-parameters: when
    it returns [true] the error string is the one passed in, when it returns
    [false] the buffer is the one passed in. *)
Theorem compileToSPIRV_writes_one_out_parameter :
  forall (w : World) (c : SlangCompiler) (h : History)
         (path entry : string) (stage : SlangStage)
         (out : vector) (err : string) ok out' err' c' h',
    compileToSPIRV w path entry stage out err c h
      = (ok, out', err', c', h') ->
    (ok = true -> err' = err) /\ (ok = false -> out' = out).
Proof.
  intros * H.
  apply compileToSPIRV_cases in H as [(_ & -> & -> & _) | (_ & H)].
  - split; [discriminate | reflexivity].
  - apply compileEntryPoint_outcome in H as (evs & _ & Ht & Hf & _).
    split.
    + intros Hok. destruct (Ht Hok) as (data & _ & _ & _ & He). exact He.
    + intros Hok. exact (proj1 (Hf Hok)).
Qed.

Lemma is_suffix_nil (s : string) : is_suffix "" s.
Proof. exists s. symmetry. apply string_app_nil_r. Qed.

Lemma is_suffix_cons (d : string) (a : ascii) (s : string) :
  is_suffix d s -> is_suffix d (String a s).
Proof. intros [pre ->]. exists (String a pre). reflexivity. Qed.

Ltac suffix_search :=
  repeat first [ apply is_suffix_refl
               | apply is_suffix_nil
               | apply is_suffix_cons
               | apply is_suffix_app ].

Lemma steps_performed_app (evs1 evs2 : list Event) :
  steps_performed (evs1 ++ evs2)
    = steps_performed evs1 ++ steps_performed evs2.
Proof.
  induction evs1 as [|e evs1 IH]; [reflexivity|].
  cbn [app steps_performed]. destruct (step_of e); cbn [app]; now rewrite IH.
Qed.

Lemma compileEntryPoint_more :
  forall w path entry stage out err c h ok out' err' c' h',
    compileEntryPoint w path entry stage out err c h
      = (ok, out', err', c', h') ->
    exists evs,
      h' = h ++ evs
      /\ lastDiagnostics c' = diagnostics_of evs
      /\ forallb is_compiler_call evs = true
      /\ (ok = true -> steps_performed evs = pipeline)
      /\ (forall data,
            code_extracted evs data -> List.length data mod 4 = 0 ->
            ok = true)
      /\ (ok = false ->
          err' = invalid_size_message
          \/ is_suffix (lastDiagnostics c') err').
Proof.
  intros * H. compile_paths H.
  all: eexists; (split; [reflexivity|]).
  all: split;
    [ unfold diagnostics_of; break_blobs;
      cbn [fold_left replay_diagnostics String.append]; reflexivity |].
  all: split; [reflexivity|].
  all: split; [intros Hok; try discriminate Hok; reflexivity|].
  all: split;
    [ let data := fresh "data" in
      let Hevs := fresh "Hevs" in
      let Hr := fresh "Hr" in
      let Hsize := fresh "Hsize" in
      intros data (? & ? & ? & ? & Hevs & Hr) Hsize;
      last_call Hevs; try discriminate Hevs;
      try reflexivity;
      injection Hevs as; subst; exfalso;
      match goal with
      | H : SLANG_FAILED _ || _ = true |- _ =>
          rewrite Hr in H; discriminate H
      | H : negb (Nat.eqb _ 0) = true |- _ =>
          unfold getBufferSize, getBufferPointer in H;
          rewrite Hsize in H; discriminate H
      end
    | ].
  all: intros Hok; try discriminate Hok.
  all: try (left; reflexivity).
  all: right; suffix_search.
Qed.

Lemma compileEntryPoint_out_parameters :
  forall w path entry stage out err c h,
    compileEntryPoint w path entry stage out err c h
    = (let r := compileEntryPoint w path entry stage [] "" c h in
       (result_ok r,
        if result_ok r then result_out r else out,
        if result_ok r then err else result_err r,
        result_compiler r, result_history r)).
Proof.
  intros. unfold compileEntryPoint, result_ok, result_out, result_err,
    result_compiler, result_history.
  cbv beta iota zeta delta
    [bind ret this modify extern emit assign_diagnostics append_diagnostics
     fst snd].
  repeat (break_match; cbv beta iota zeta delta [fst snd]).
  all: try reflexivity.
  all: match goal with
       | H : negb (Nat.eqb _ 0) = false |- _ =>
           apply negb_false_iff, Nat.eqb_eq in H;
           unfold getBufferSize in *
       end.
  all: now rewrite !memcpy_resize.
Qed.

Lemma compileEntryPoint_clears :
  forall w path entry stage out err c h s,
    compileEntryPoint w path entry stage out err (set_lastDiagnostics s c) h
    = compileEntryPoint w path entry stage out err c h.
Proof. reflexivity. Qed.

(** X7: what a compile call returns, what it does to the compiler and which
    calls it makes do not depend on what the out-parameters held: two calls
    that differ only in the buffer and the error string passed in agree on
    the result, the compiler and the history, on the buffer when they
    succeed and on the error string when they fail. *)
Theorem compileToSPIRV_ignores_out_parameters :
  forall (w : World) (c : SlangCompiler) (h : History)
         (path entry : string) (stage : SlangStage)
         (out1 out2 : vector) (err1 err2 : string),
    let r1 := compileToSPIRV w path entry stage out1 err1 c h in
    let r2 := compileToSPIRV w path entry stage out2 err2 c h in
    result_ok r1 = result_ok r2
    /\ result_compiler r1 = result_compiler r2
    /\ result_history r1 = result_history r2
    /\ (result_ok r1 = true -> result_out r1 = result_out r2)
    /\ (result_ok r1 = false -> result_err r1 = result_err r2).
Proof.
  intros. subst r1 r2. unfold compileToSPIRV, bind, this, ret. cbv beta.
  destruct (initialized c); cbn [negb].
  - rewrite (compileEntryPoint_out_parameters w path entry stage out1 err1).
    rewrite (compileEntryPoint_out_parameters w path entry stage out2 err2).
    cbv zeta. unfold result_ok, result_out, result_err, result_compiler,
      result_history. cbn [fst snd].
    repeat split; intros Hok; now rewrite Hok.
  - unfold result_ok, result_out, result_err, result_compiler,
      result_history. cbn [fst snd].
    repeat split. discriminate.
Qed.

(** X8: on an initialised compiler a compile call starts from an empty
    diagnostics string: whatever text an earlier call left in
    [lastDiagnostics] has no influence on the call. *)
Theorem compile_ignores_previous_diagnostics :
  forall (w : World) (c : SlangCompiler) (h : History) (stale : string)
         (path entry ventry fentry : string) (stage : SlangStage)
         (out outV outF : vector) (err : string),
    isInitialized c = true ->
    compileToSPIRV w path entry stage out err (set_lastDiagnostics stale c) h
      = compileToSPIRV w path entry stage out err c h
    /\ compileVertexFragment w path ventry fentry outV outF err
         (set_lastDiagnostics stale c) h
       = compileVertexFragment w path ventry fentry outV outF err c h.
Proof.
  intros * Hinit. unfold isInitialized in Hinit. split.
  - rewrite !compileToSPIRV_initialized by assumption.
    apply compileEntryPoint_clears.
  - unfold compileVertexFragment, bind, this, ret. cbv beta.
    rewrite initialized_set_lastDiagnostics, Hinit. cbn [negb].
    now rewrite compileEntryPoint_clears.
Qed.

(** X9: after [compileToSPIRV] on an initialised compiler,
    [getLastDiagnostics] is determined by the answers of this call alone: it
    is the text of the entry-point step if there was one, else the text of
    the load, followed by the texts of the composition, the link and the
    extraction, in that order. *)
Theorem compileToSPIRV_diagnostics :
  forall (w : World) (c : SlangCompiler) (h : History)
         (path entry : string) (stage : SlangStage)
         (out : vector) (err : string) ok out' err' c' h',
    isInitialized c = true ->
    compileToSPIRV w path entry stage out err c h
      = (ok, out', err', c', h') ->
    exists evs,
      h' = h ++ evs /\ getLastDiagnostics c' = diagnostics_of evs.
Proof.
  intros * Hinit H. unfold isInitialized in Hinit.
  rewrite compileToSPIRV_initialized in H by assumption.
  apply compileEntryPoint_more in H as (evs & -> & Hd & _).
  exists evs. auto.
Qed.


(** X11: when a compile call fails, the error message ends with the whole
    diagnostics string, so the toolchain's texts reach the caller through
    [outErrorMsg] as well; the two exceptions are the refusal on an
    uninitialised compiler and the size check, whose messages stand alone. *)
Theorem failure_message_carries_diagnostics :
  forall (w : World) (c : SlangCompiler) (h : History)
         (path entry ventry fentry : string) (stage : SlangStage)
         (out outV outF : vector) (err : string),
    (forall out' err' c' h',
        compileToSPIRV w path entry stage out err c h
          = (false, out', err', c', h') ->
        err' = "Compiler not initialized"%string
        \/ err' = invalid_size_message
        \/ is_suffix (getLastDiagnostics c') err')
    /\ (forall outV' outF' err' c' h',
           compileVertexFragment w path ventry fentry outV outF err c h
             = (false, outV', outF', err', c', h') ->
           err' = "Compiler not initialized"%string
           \/ err' = invalid_size_message
           \/ is_suffix (getLastDiagnostics c') err').
Proof.
  intros. split.
  - intros * H.
    apply compileToSPIRV_cases in H as [(_ & _ & _ & -> & _) | (_ & H)].
    + auto.
    + apply compileEntryPoint_more in H as (evs & _ & _ & _ & _ & _ & Hm).
      right. exact (Hm eq_refl).
  - intros * H.
    apply compileVertexFragment_cases in H
      as [(_ & _ & _ & _ & -> & _)
         | [(_ & HV & _) | (_ & errV & cV & hV & HV & HF)]].
    + auto.
    + apply compileEntryPoint_more in HV as (evs & _ & _ & _ & _ & _ & Hm).
      right. exact (Hm eq_refl).
    + apply compileEntryPoint_more in HF as (evs & _ & _ & _ & _ & _ & Hm).
      right. exact (Hm eq_refl).
Qed.

(** X12: [compileToSPIRV] returns [true] exactly when its last call is a
    successful extraction of a blob whose size is a multiple of four bytes,
    and then each of the five pipeline steps has been made exactly once. *)
Theorem compileToSPIRV_succeeds_iff :
  forall (w : World) (c : SlangCompiler) (h : History)
         (path entry : string) (stage : SlangStage)
         (out : vector) (err : string) ok out' err' c' h',
    compileToSPIRV w path entry stage out err c h
      = (ok, out', err', c', h') ->
    exists evs,
      h' = h ++ evs
      /\ (ok = true <->
          exists data,
            code_extracted evs data /\ List.length data mod 4 = 0)
      /\ (ok = true -> steps_performed evs = pipeline).
Proof.
  intros * H.
  apply compileToSPIRV_cases in H as [(_ & -> & _ & _ & _ & ->) | (_ & H)].
  - exists []. rewrite app_nil_r. split; [reflexivity|]. split.
    + split; [discriminate|].
      intros (data & Hx & _). now apply code_extracted_nil in Hx.
    + discriminate.
  - pose proof (compileEntryPoint_outcome _ _ _ _ _ _ _ _ H)
      as (evs' & E' & Ht & _).
    apply compileEntryPoint_more in H as (evs & -> & _ & _ & Hs & Hc & _).
    apply app_inv_head in E'. subst evs'.
    exists evs. split; [reflexivity|]. split; [split|assumption].
    + intros Hok. destruct (Ht Hok) as (data & Hx & Hm & _). eauto.
    + intros (data & Hx & Hm). eauto.
Qed.

(** X13: [compileVertexFragment] is [compileToSPIRV] for the vertex entry
    point followed, when that returned [true], by [compileToSPIRV] for the
    fragment entry point on what the first call left behind. *)
Theorem compileVertexFragment_is_two_compileToSPIRV :
  forall (w : World) (c : SlangCompiler) (h : History)
         (path ventry fentry : string) (outV outF : vector) (err : string),
    compileVertexFragment w path ventry fentry outV outF err c h
    = match compileToSPIRV w path ventry SLANG_STAGE_VERTEX outV err c h with
      | (true, outV', errV, cV, hV) =>
          match compileToSPIRV w path fentry SLANG_STAGE_FRAGMENT
                  outF errV cV hV with
          | (ok, outF', err', c', h') => (ok, outV', outF', err', c', h')
          end
      | (false, outV', errV, cV, hV) => (false, outV', outF, errV, cV, hV)
      end.
Proof.
  intros. destruct (initialized c) eqn:Hinit.
  - rewrite compileToSPIRV_initialized by assumption.
    unfold compileVertexFragment, bind, this, ret. cbv beta.
    rewrite Hinit. cbn [negb].
    destruct (compileEntryPoint w path ventry SLANG_STAGE_VERTEX outV err c h)
      as [[[[okV oV] eV] cV] hV] eqn:HV.
    destruct okV; cbn [negb]; [|reflexivity].
    apply compileEntryPoint_frame in HV as (Hi & _).
    rewrite compileToSPIRV_initialized by congruence.
    destruct (compileEntryPoint w path fentry SLANG_STAGE_FRAGMENT
                outF eV cV hV) as [[[[okF oF] eF] cF] hF].
    destruct okF; reflexivity.
  - unfold compileVertexFragment, compileToSPIRV, bind, this, ret. cbv beta.
    rewrite Hinit. reflexivity.
Qed.

(** X14: a [compileVertexFragment] that returns [true] has gone through the
    whole pipeline twice, once per stage: the adapter keeps nothing from the
    vertex stage, the source is loaded and linked again for the fragment
    stage. *)
Theorem compileVertexFragment_runs_pipeline_twice :
  forall (w : World) (c : SlangCompiler) (h : History)
         (path ventry fentry : string) (outV outF : vector) (err : string)
         outV' outF' err' c' h',
    compileVertexFragment w path ventry fentry outV outF err c h
      = (true, outV', outF', err', c', h') ->
    exists evs,
      h' = h ++ evs /\ steps_performed evs = pipeline ++ pipeline.
Proof.
  intros * H.
  apply compileVertexFragment_cases in H
    as [(_ & Hno & _) | [(_ & _ & Hno & _) | (_ & errV & cV & hV & HV & HF)]];
    try discriminate Hno.
  apply compileEntryPoint_more in HV as (evsV & -> & _ & _ & HsV & _).
  apply compileEntryPoint_more in HF as (evsF & -> & _ & _ & HsF & _).
  exists (evsV ++ evsF). rewrite app_assoc, steps_performed_app.
  rewrite HsV, HsF by reflexivity. auto.
Qed.


(** X16: the compiler adapter talks to Slang, to the source file and to the
    standard output only: no call of [initialize], [compileToSPIRV] or
    [compileVertexFragment] reaches the window, the graphics layer or the
    log. *)
Theorem compiler_calls_only_the_toolchain :
  forall (w : World) (c : SlangCompiler) (h : History),
    (forall target ok c' h',
        initialize w target c h = (ok, c', h') ->
        exists evs, h' = h ++ evs /\ forallb is_compiler_call evs = true)
    /\ (forall path entry stage out err ok out' err' c' h',
           compileToSPIRV w path entry stage out err c h
             = (ok, out', err', c', h') ->
           exists evs, h' = h ++ evs /\ forallb is_compiler_call evs = true)
    /\ (forall path ventry fentry outV outF err ok outV' outF' err' c' h',
           compileVertexFragment w path ventry fentry outV outF err c h
             = (ok, outV', outF', err', c', h') ->
           exists evs, h' = h ++ evs /\ forallb is_compiler_call evs = true).
Proof.
  intros. split; [|split].
  - intros * H. revert H. unfold initialize. run_cases.
    all: intros H; injection H as <- <- <-.
    all: rewrite <- ?app_assoc; cbn [app].
    all: try (exists []; now rewrite app_nil_r).
    all: eexists; split; reflexivity.
  - intros * H.
    apply compileToSPIRV_cases in H as [(_ & _ & _ & _ & _ & ->) | (_ & H)].
    + exists []. now rewrite app_nil_r.
    + apply compileEntryPoint_more in H as (evs & -> & _ & Hc & _). eauto.
  - intros * H.
    apply compileVertexFragment_cases in H
      as [(_ & _ & _ & _ & _ & _ & ->)
         | [(_ & HV & _) | (_ & errV & cV & hV & HV & HF)]].
    + exists []. now rewrite app_nil_r.
    + apply compileEntryPoint_more in HV as (evs & -> & _ & Hc & _). eauto.
    + apply compileEntryPoint_more in HV as (evsV & -> & _ & HcV & _).
      apply compileEntryPoint_more in HF as (evsF & -> & _ & HcF & _).
      exists (evsV ++ evsF). rewrite app_assoc, forallb_app, HcV, HcF. auto.
Qed.

Lemma compileEntryPoint_answered :
  forall w path entry stage out err c h ok out' err' c' h',
    compileEntryPoint w path entry stage out err c h
      = (ok, out', err', c', h') ->
    exists evs, h' = h ++ evs /\ answered w h evs.
Proof.
  intros * H. compile_paths H.
  all: eexists; (split; [reflexivity|]).
  all: answers.
Qed.

(** X23: on an initialised compiler, the calls of [compileToSPIRV] and of
    each stage of [compileVertexFragment] are the answers of the world to the
    pipeline steps made in order (read the source file and load the module by
    path, resolve the named entry point for the stage, compose module and
    entry point, link the composition, extract the code), each step fed with
    what the step before produced, the first step that fails being the last
    call of the stage; the fragment stage is run exactly when the vertex
    stage ended with the extraction of a blob of whole words. *)
Theorem compile_follows_pipeline :
  forall (w : World) (c : SlangCompiler) (h : History)
         (path entry ventry fentry : string) (stage : SlangStage)
         (out outV outF : vector) (err : string),
    isInitialized c = true ->
    (forall ok out' err' c' h',
        compileToSPIRV w path entry stage out err c h
          = (ok, out', err', c', h') ->
        exists evs,
          h' = h ++ evs
          /\ answered w h evs
          /\ performs (session c) path entry stage ExpectSource evs)
    /\ (forall ok outV' outF' err' c' h',
           compileVertexFragment w path ventry fentry outV outF err c h
             = (ok, outV', outF', err', c', h') ->
           exists evsV evsF,
             h' = h ++ evsV ++ evsF
             /\ answered w h (evsV ++ evsF)
             /\ performs (session c) path ventry SLANG_STAGE_VERTEX
                  ExpectSource evsV
             /\ ((ok = false /\ evsF = []
                  /\ forall data,
                       code_extracted evsV data ->
                       List.length data mod 4 <> 0)
                 \/ ((exists data,
                         code_extracted evsV data
                         /\ List.length data mod 4 = 0)
                     /\ performs (session c) path fentry
                          SLANG_STAGE_FRAGMENT ExpectSource evsF))).
Proof.
  intros * Hinit. unfold isInitialized in Hinit. split.
  - intros * H. rewrite compileToSPIRV_initialized in H by assumption.
    pose proof (compileEntryPoint_stage _ _ _ _ _ _ _ _ H)
      as (evs' & E' & _ & Hp & _).
    apply compileEntryPoint_answered in H as (evs & -> & Ha).
    apply app_inv_head in E'. subst evs'. eauto.
  - intros * H.
    apply compileVertexFragment_cases in H
      as [(Hno & _) | [(_ & HV & -> & _) | (_ & errV & cV & hV & HV & HF)]].
    + congruence.
    + pose proof (compileEntryPoint_stage _ _ _ _ _ _ _ _ HV)
        as (evs' & E' & _ & Hp & _).
      pose proof (compileEntryPoint_more _ _ _ _ _ _ _ _ HV)
        as (evs'' & E'' & _ & _ & _ & Hc & _).
      apply compileEntryPoint_answered in HV as (evsV & -> & Ha).
      apply app_inv_head in E', E''. subst evs' evs''.
      exists evsV, []. rewrite !app_nil_r.
      split; [reflexivity|]. split; [exact Ha|]. split; [exact Hp|].
      left. split; [reflexivity|]. split; [reflexivity|].
      intros data Hx Hm. specialize (Hc data Hx Hm). discriminate Hc.
    + pose proof (compileEntryPoint_frame _ _ _ _ _ _ _ _ HV) as (_ & Hs & _).
      pose proof (compileEntryPoint_stage _ _ _ _ _ _ _ _ HV)
        as (evsV' & EV' & _ & HpV & _).
      pose proof (compileEntryPoint_stage _ _ _ _ _ _ _ _ HF)
        as (evsF' & EF' & _ & HpF & _).
      pose proof (compileEntryPoint_outcome _ _ _ _ _ _ _ _ HV)
        as (evsV'' & EV'' & Ht & _).
      apply compileEntryPoint_answered in HV as (evsV & -> & HaV).
      apply compileEntryPoint_answered in HF as (evsF & -> & HaF).
      apply app_inv_head in EV', EV'', EF'. subst evsV' evsV'' evsF'.
      rewrite Hs in HpF.
      destruct (Ht eq_refl) as (data & Hx & Hm & _).
      exists evsV, evsF. rewrite app_assoc.
      split; [reflexivity|].
      split; [now apply answered_app|].
      split; [exact HpV|]. right. eauto.
Qed.

(** *** The further properties on the sample worlds *)

Lemma initialize_returns_isInitialized_witness :
  isInitialized (snd (fst sample_initialize_failed)) = false.
Proof.
  apply (initialize_returns_isInitialized no_slang_session_world SLANG_SPIRV
           SlangCompiler_new [] (h' := snd sample_initialize_failed)).
  reflexivity.
Defined.

Lemma initialize_success_keeps_diagnostics_witness :
  getLastDiagnostics (snd (fst sample_initialize_retry))
  = "Failed to create Slang session"%string.
Proof.
  apply (initialize_success_keeps_diagnostics healthy_world SLANG_SPIRV
           (snd (fst sample_initialize_failed)) []
           (h' := snd sample_initialize_retry)).
  reflexivity.
Defined.

Lemma initialize_calls_witness :
  exists r1 gs,
    globalSession (snd (fst sample_initialize_failed)) = gs
    /\ ((SLANG_FAILED r1 = true
         /\ snd sample_initialize_failed = [] ++ [EvCreateGlobalSession (r1, gs)]
         /\ false = false
         /\ session (snd (fst sample_initialize_failed))
            = session SlangCompiler_new)
        \/ (SLANG_FAILED r1 = false
            /\ exists profile r2 s,
                 snd sample_initialize_failed
                 = [] ++ [EvCreateGlobalSession (r1, gs);
                          EvFindProfile gs "spirv_1_5" profile;
                          EvCreateSession gs SLANG_SPIRV profile (r2, s)]
                 /\ false = negb (SLANG_FAILED r2)
                 /\ session (snd (fst sample_initialize_failed)) = s)).
Proof.
  apply (initialize_calls no_slang_session_world SLANG_SPIRV
           SlangCompiler_new []); reflexivity.
Defined.

Lemma compile_refused_after_failed_initialize_witness :
  compileToSPIRV healthy_world sample_path "cubeVertex" SLANG_STAGE_VERTEX
    [1%Z] "" (snd (fst sample_initialize_failed)) [EvPollEvents]
  = (false, [1%Z], "Compiler not initialized"%string,
     snd (fst sample_initialize_failed), [EvPollEvents]).
Proof.
  refine (proj1 (compile_refused_after_failed_initialize
                   no_slang_session_world healthy_world SLANG_SPIRV
                   SlangCompiler_new [] (h' := snd sample_initialize_failed)
                   [EvPollEvents] sample_path "cubeVertex" "cubeVertex"
                   "cubeFragment" SLANG_STAGE_VERTEX [1%Z] [] [] "" _)).
  reflexivity.
Defined.

Lemma compile_keeps_sessions_witness :
  session (result_compiler sample_compile) = session ready_compiler
  /\ globalSession (result_compiler sample_compile)
     = globalSession ready_compiler.
Proof.
  destruct (compile_keeps_sessions healthy_world ready_compiler []
              sample_path "cubeVertex" "cubeVertex" "cubeFragment"
              SLANG_STAGE_VERTEX [] [] [] "") as [H _].
  apply (H (result_ok sample_compile) (result_out sample_compile)
           (result_err sample_compile) (result_compiler sample_compile)
           (result_history sample_compile)).
  reflexivity.
Defined.

Lemma compileToSPIRV_writes_one_out_parameter_witness :
  result_out sample_odd_blob = [].
Proof.
  refine (proj2 (compileToSPIRV_writes_one_out_parameter odd_blob_world
                   ready_compiler [] sample_path "cubeVertex"
                   SLANG_STAGE_VERTEX [] ""
                   (err' := result_err sample_odd_blob)
                   (c' := result_compiler sample_odd_blob)
                   (h' := result_history sample_odd_blob) _) eq_refl).
  reflexivity.
Defined.

Lemma compileToSPIRV_ignores_out_parameters_witness :
  result_out
    (compileToSPIRV healthy_world sample_path "cubeVertex" SLANG_STAGE_VERTEX
       [1%Z; 2%Z; 3%Z] "old" ready_compiler [])
  = result_out sample_compile.
Proof.
  refine (proj1 (proj2 (proj2 (proj2
            (compileToSPIRV_ignores_out_parameters healthy_world
               ready_compiler [] sample_path "cubeVertex" SLANG_STAGE_VERTEX
               [1%Z; 2%Z; 3%Z] [] "old" "")))) _).
  reflexivity.
Defined.

Lemma compile_ignores_previous_diagnostics_witness :
  compileToSPIRV healthy_world sample_path "cubeVertex" SLANG_STAGE_VERTEX
    [] "" used_compiler []
  = sample_compile.
Proof.
  refine (proj1 (compile_ignores_previous_diagnostics healthy_world
                   ready_compiler [] "stale text" sample_path "cubeVertex"
                   "cubeVertex" "cubeFragment" SLANG_STAGE_VERTEX [] [] [] ""
                   _)).
  reflexivity.
Defined.

Lemma compileToSPIRV_diagnostics_witness :
  exists evs,
    result_history sample_missing_entry = [] ++ evs
    /\ getLastDiagnostics (result_compiler sample_missing_entry)
       = diagnostics_of evs.
Proof.
  apply (compileToSPIRV_diagnostics missing_entry_world ready_compiler []
           sample_path "cubeVertex" SLANG_STAGE_VERTEX [1%Z] ""
           (ok := result_ok sample_missing_entry)
           (out' := result_out sample_missing_entry)
           (err' := result_err sample_missing_entry)); reflexivity.
Defined.


Lemma failure_message_carries_diagnostics_witness :
  result_err sample_missing_entry = "Compiler not initialized"%string
  \/ result_err sample_missing_entry = invalid_size_message
  \/ is_suffix (getLastDiagnostics (result_compiler sample_missing_entry))
       (result_err sample_missing_entry).
Proof.
  destruct (failure_message_carries_diagnostics missing_entry_world
              ready_compiler [] sample_path "cubeVertex" "cubeVertex"
              "cubeFragment" SLANG_STAGE_VERTEX [1%Z] [] [] "") as [H _].
  apply (H (result_out sample_missing_entry) (result_err sample_missing_entry)
           (result_compiler sample_missing_entry)
           (result_history sample_missing_entry)).
  reflexivity.
Defined.

Lemma compileToSPIRV_succeeds_iff_witness :
  exists evs,
    result_history sample_compile = [] ++ evs
    /\ (true = true <->
        exists data, code_extracted evs data /\ List.length data mod 4 = 0)
    /\ (true = true -> steps_performed evs = pipeline).
Proof.
  apply (compileToSPIRV_succeeds_iff healthy_world ready_compiler []
           sample_path "cubeVertex" SLANG_STAGE_VERTEX [] ""
           (out' := result_out sample_compile)
           (err' := result_err sample_compile)
           (c' := result_compiler sample_compile)).
  reflexivity.
Defined.

Lemma compileVertexFragment_runs_pipeline_twice_witness :
  exists evs,
    snd sample_compile_both = [] ++ evs
    /\ steps_performed evs = pipeline ++ pipeline.
Proof.
  apply (compileVertexFragment_runs_pipeline_twice healthy_world
           ready_compiler [] sample_path "cubeVertex" "cubeFragment" [] [] ""
           (outV' := snd (fst (fst (fst (fst sample_compile_both)))))
           (outF' := snd (fst (fst (fst sample_compile_both))))
           (err' := snd (fst (fst sample_compile_both)))
           (c' := snd (fst sample_compile_both))).
  reflexivity.
Defined.


Lemma compiler_calls_only_the_toolchain_witness :
  exists evs,
    snd sample_compile_both = [] ++ evs
    /\ forallb is_compiler_call evs = true.
Proof.
  destruct (compiler_calls_only_the_toolchain healthy_world ready_compiler [])
    as (_ & _ & H).
  apply (H sample_path "cubeVertex"%string "cubeFragment"%string [] []
           ""%string (fst (fst (fst (fst (fst sample_compile_both)))))
           (snd (fst (fst (fst (fst sample_compile_both)))))
           (snd (fst (fst (fst sample_compile_both))))
           (snd (fst (fst sample_compile_both)))
           (snd (fst sample_compile_both))).
  reflexivity.
Defined.

Lemma compile_follows_pipeline_witness :
  exists evs,
    result_history sample_compile = [] ++ evs
    /\ answered healthy_world [] evs
    /\ performs (session ready_compiler) sample_path "cubeVertex"
         SLANG_STAGE_VERTEX ExpectSource evs.
Proof.
  destruct (compile_follows_pipeline healthy_world ready_compiler []
              sample_path "cubeVertex" "cubeVertex" "cubeFragment"
              SLANG_STAGE_VERTEX [] [] [] "" eq_refl) as [H _].
  apply (H (result_ok sample_compile) (result_out sample_compile)
           (result_err sample_compile) (result_compiler sample_compile)).
  reflexivity.
Defined.

(** *** The application *)

Import App.

Lemma compileEntryPoint_creates_nothing :
  forall w path entry stage out err c h ok out' err' c' h',
    compileEntryPoint w path entry stage out err c h
      = (ok, out', err', c', h') ->
    exists evs, h' = h ++ evs /\ filter is_creation evs = [].
Proof.
  intros * H. compile_paths H.
  all: eexists; split; reflexivity.
Qed.

Lemma compileVertexFragment_creates_nothing :
  forall w path ventry fentry outV outF err c h ok outV' outF' err' c' h',
    compileVertexFragment w path ventry fentry outV outF err c h
      = (ok, outV', outF', err', c', h') ->
    exists evs, h' = h ++ evs /\ filter is_creation evs = [].
Proof.
  intros * H.
  apply compileVertexFragment_cases in H
    as [(_ & _ & _ & _ & _ & _ & ->)
       | [(_ & HV & _) | (_ & errV & cV & hV & HV & HF)]].
  - exists []. now rewrite app_nil_r.
  - eapply compileEntryPoint_creates_nothing; eassumption.
  - apply compileEntryPoint_creates_nothing in HV as (evsV & -> & HcV).
    apply compileEntryPoint_creates_nothing in HF as (evsF & -> & HcF).
    exists (evsV ++ evsF). rewrite app_assoc, filter_app, HcV, HcF. auto.
Qed.

Lemma initialize_creates_nothing :
  forall w target c h ok c' h',
    initialize w target c h = (ok, c', h') ->
    exists evs, h' = h ++ evs /\ filter is_creation evs = [].
Proof.
  intros * H. revert H. unfold initialize. run_cases.
  all: intros H; injection H as <- <- <-.
  all: rewrite <- ?app_assoc; cbn [app].
  all: try (exists []; now rewrite app_nil_r).
  all: eexists; split; reflexivity.
Qed.

Lemma initRender_compile_failed :
  forall w a h outV outF err c' h',
    compileVertexFragment w SLANG_CUBE_PATH "cubeVertex" "cubeFragment"
      [] [] "" (compiler a) h
    = (false, outV, outF, err, c', h') ->
    initRender w a h
    = (tt, set_compiler c' a,
       h' ++ [EvLog ("Failed to compile shaders: " ++ err ++ endl);
              EvLog ("Diagnostics: " ++ getLastDiagnostics c' ++ endl)]).
Proof.
  intros * H. unfold initRender, on_compiler, bind, this, emit. cbv beta.
  rewrite H. cbn. rewrite <- app_assoc. reflexivity.
Qed.

Lemma WindowApp_ctor_steps :
  forall w name width height a h,
    let win := lvk_initWindow w h name width height in
    let h1 := h ++ [EvInitWindow name width height win] in
    let context :=
      lvk_createVulkanContextWithSwapchain w h1 win width height in
    let h2 := h1 ++ [EvCreateVulkanContext win width height context] in
    let a2 := set_ctx context (set_window win a) in
    WindowApp_ctor w name width height a h
    = match initialize w SLANG_SPIRV (compiler a2) h2 with
      | (true, c', h') => initRender w (set_compiler c' a2) h'
      | (false, c', h') =>
          (tt, set_compiler c' a2,
           h' ++ [EvLog ("Failed to initialize Slang compiler: "
                           ++ getLastDiagnostics c' ++ endl)])
      end.
Proof.
  intros. unfold WindowApp_ctor, on_compiler, bind, this, emit, extern, modify.
  cbv beta zeta. fold win. fold h1. fold context. fold h2. fold a2.
  destruct (initialize w SLANG_SPIRV (compiler a2) h2) as [[ok c'] h'].
  destruct ok; reflexivity.
Qed.

Lemma initRender_fatal :
  forall w a h outV outF err c' h',
    compileVertexFragment w SLANG_CUBE_PATH "cubeVertex" "cubeFragment"
      [] [] "" (compiler a) h
    = (false, outV, outF, err, c', h') ->
    exists a' evs,
      initRender w a h = (tt, a', h ++ evs)
      /\ fatal_to_initialization a a' evs
           ("Failed to compile shaders: " ++ err ++ endl).
Proof.
  intros * H. rewrite (initRender_compile_failed _ _ _ H).
  apply compileVertexFragment_creates_nothing in H as (evs & -> & Hc).
  eexists. eexists. split; [rewrite <- app_assoc; reflexivity|].
  split; [apply in_or_app; right; left; reflexivity|].
  split; [rewrite filter_app, Hc; reflexivity|].
  cbn. auto.
Qed.

(** C4: a failure of [compiler.initialize] in the constructor, or of
    [compileVertexFragment] in [initRender], is fatal to the initialisation:
    the application logs the error and returns, no shader module and no
    render pipeline is created, and the holders of the modules and of the
    pipelines stay as they were (empty), so that no module or pipeline exists
    to render with. *)
Theorem initialization_failure_is_fatal :
  forall (w : World) (name : string) (width height : Z)
         (a : WindowApp) (h : History),
    (forall c1 h1,
        initialize w SLANG_SPIRV
          (compiler (fst (at_initialize w name width height a h)))
          (snd (at_initialize w name width height a h))
        = (false, c1, h1) ->
        exists a' evs,
          WindowApp_ctor w name width height a h = (tt, a', h ++ evs)
          /\ fatal_to_initialization a a' evs
               ("Failed to initialize Slang compiler: "
                  ++ getLastDiagnostics c1 ++ endl))
    /\ (forall c1 h1 outV outF err c2 h2,
           initialize w SLANG_SPIRV
             (compiler (fst (at_initialize w name width height a h)))
             (snd (at_initialize w name width height a h))
           = (true, c1, h1) ->
           compileVertexFragment w SLANG_CUBE_PATH "cubeVertex" "cubeFragment"
             [] [] "" c1 h1
           = (false, outV, outF, err, c2, h2) ->
           exists a' evs,
             WindowApp_ctor w name width height a h = (tt, a', h ++ evs)
             /\ fatal_to_initialization a a' evs
                  ("Failed to compile shaders: " ++ err ++ endl))
    /\ (forall outV outF err c2 h2,
           compileVertexFragment w SLANG_CUBE_PATH "cubeVertex" "cubeFragment"
             [] [] "" (compiler a) h
           = (false, outV, outF, err, c2, h2) ->
           exists a' evs,
             initRender w a h = (tt, a', h ++ evs)
             /\ fatal_to_initialization a a' evs
                  ("Failed to compile shaders: " ++ err ++ endl)).
Proof.
  intros. split; [|split].
  - intros * Hinit. rewrite WindowApp_ctor_steps.
    unfold at_initialize in Hinit. cbn [fst snd] in Hinit. rewrite Hinit.
    apply initialize_creates_nothing in Hinit as (evs & -> & Hc).
    eexists. eexists. split; [rewrite <- !app_assoc; reflexivity|].
    split; [apply in_or_app; right; apply in_or_app; right;
            apply in_or_app; right; left; reflexivity|].
    split; [rewrite !filter_app, Hc; reflexivity|].
    cbn. auto.
  - intros * Hinit Hcompile. rewrite WindowApp_ctor_steps.
    unfold at_initialize in Hinit. cbn [fst snd] in Hinit. rewrite Hinit.
    apply initialize_creates_nothing in Hinit as (evs & -> & Hc).
    match goal with
    | |- context [initRender w ?x ?y] =>
        destruct (@initRender_fatal w x y outV outF err c2 h2 Hcompile)
          as (a' & evs' & Hr & Hlog & Hcr & Hfields)
    end.
    rewrite Hr. exists a', ([EvInitWindow name width height
                                 (lvk_initWindow w h name width height)]
                             ++ [EvCreateVulkanContext
                                   (lvk_initWindow w h name width height)
                                   width height
                                   (lvk_createVulkanContextWithSwapchain w
                                      (h ++ [EvInitWindow name width height
                                               (lvk_initWindow w h name
                                                  width height)])
                                      (lvk_initWindow w h name width height)
                                      width height)]
                             ++ evs ++ evs').
    split; [rewrite <- !app_assoc; reflexivity|].
    split; [apply in_or_app; right; apply in_or_app; right;
            apply in_or_app; right; exact Hlog|].
    split; [rewrite !filter_app, Hc, Hcr; reflexivity|].
    cbn in Hfields. exact Hfields.
  - intros * Hcompile. eapply initRender_fatal; eassumption.
Qed.

Lemma frame_renders :
  forall w a h,
    exists evs, frame w a h = (tt, a, h ++ evs) /\ iteration_renders a evs.
Proof.
  intros. unfold frame. run_cases.
  all: rewrite <- ?app_assoc; cbn [app].
  all: eexists; (split; [reflexivity|]).
  all: intros width height Hin Hw Hh.
  all: cbn [In] in Hin;
    repeat match goal with
           | H : _ \/ _ |- _ => destruct H
           | H : False |- _ => destruct H
           end; try discriminate.
  all: match goal with
       | H : EvGetFramebufferSize _ = EvGetFramebufferSize _ |- _ =>
           injection H as -> ->
       end.
  - apply orb_true_iff in Heqb as [E|E]; apply Z.eqb_eq in E; contradiction.
  - unfold renders_cube_twice, rotation. cbn [filter is_time_sample
      is_draw_command]. do 2 eexists. split; reflexivity.
Qed.

Lemma frame_iteration :
  forall w a h,
    exists width height body,
      frame w a h
      = (tt, a,
         h ++ EvPollEvents :: EvGetFramebufferSize (width, height) :: body)
      /\ answered w h
           (EvPollEvents :: EvGetFramebufferSize (width, height) :: body)
      /\ filter is_close_query body = []
      /\ (width = 0%Z \/ height = 0%Z -> body = [])
      /\ (width <> 0%Z -> height <> 0%Z -> renders_cube_twice a body).
Proof.
  intros. unfold frame. run_cases.
  all: rewrite <- ?app_assoc; cbn [app].
  all: do 3 eexists; (split; [reflexivity|]).
  all: split; [answers|].
  all: split; [reflexivity|].
  - split; [reflexivity|]. intros Hw Hh.
    apply orb_true_iff in Heqb as [E|E]; apply Z.eqb_eq in E; contradiction.
  - split.
    + intros [E|E]; subst; cbn in Heqb; try discriminate Heqb.
      rewrite orb_true_r in Heqb. discriminate Heqb.
    + intros _ _. unfold renders_cube_twice, rotation.
      cbn [filter is_time_sample is_draw_command].
      do 2 eexists. split; reflexivity.
Qed.

Lemma run_history :
  forall w fuel a h,
    exists closed evs,
      run w fuel a h = (closed, a, h ++ evs)
      /\ answered w h evs
      /\ loop_history fuel closed a evs.
Proof.
  intros w fuel. induction fuel as [|fuel IH]; intros a h.
  - exists false, []. cbn [run]. unfold ret. rewrite app_nil_r.
    split; [reflexivity|]. split; [exact I|].
    exists []. split; [constructor|]. right. auto.
  - cbn [run]. unfold bind, extern, ret. cbv beta zeta.
    destruct (glfwWindowShouldClose w h) eqn:Hclose.
    + exists true, [EvWindowShouldClose true].
      split; [reflexivity|]. split; [cbn; auto|].
      exists []. split; [constructor|]. left. cbn. repeat split. lia.
    + destruct (frame_iteration w a (h ++ [EvWindowShouldClose false]))
        as (width & height & body & Hf & Ha & Hq & Hzero & Hdraw).
      rewrite Hf.
      destruct (IH a ((h ++ [EvWindowShouldClose false])
                        ++ EvPollEvents
                             :: EvGetFramebufferSize (width, height) :: body))
        as (closed & evs & Hrun & Hans & iterations & Hall & Hshape).
      rewrite Hrun.
      exists closed,
        ((EvWindowShouldClose false :: EvPollEvents
            :: EvGetFramebufferSize (width, height) :: body) ++ evs).
      split; [rewrite <- !app_assoc; reflexivity|].
      split.
      * apply answered_app.
        -- cbn [answered world_answer]. split; [now rewrite Hclose|].
           exact Ha.
        -- rewrite <- app_assoc in Hans. exact Hans.
      * exists ((EvWindowShouldClose false :: EvPollEvents
                   :: EvGetFramebufferSize (width, height) :: body)
                  :: iterations).
        split.
        -- constructor; [|exact Hall].
           exists width, height, body. auto.
        -- cbn [List.concat List.length].
           destruct Hshape as [(-> & -> & Hlen) | (-> & -> & Hlen)].
           ++ left. rewrite <- app_assoc. repeat split. lia.
           ++ right. repeat split. lia.
Qed.

(** C6: an iteration of the render loop that sees a framebuffer of non-zero
    size renders the cube exactly twice: one draw of 36 vertices with the
    solid pipeline, then one draw of 36 vertices with the wireframe pipeline,
    both with the same matrix, whose model part is the rotation by the one
    time sample of the iteration.  This holds for the loop body; and the
    calls of the loop itself, observed for any number of iterations, are the
    world's answers to just such iterations, one after the other: each opens
    with the loop test answered [false], polls, reads the framebuffer size,
    and up to the next loop test does nothing more when a dimension is zero
    and renders the cube twice otherwise; the loop test answered [true] ends
    the calls. *)
Theorem render_loop_draws_cube_twice :
  forall (w : World) (a : WindowApp) (h : History),
    (forall width height,
        glfwGetFramebufferSize w (h ++ [EvPollEvents]) = (width, height) ->
        width <> 0%Z -> height <> 0%Z ->
        exists evs,
          frame w a h = (tt, a, h ++ evs) /\ renders_cube_twice a evs)
    /\ (forall fuel,
           exists closed evs,
             run w fuel a h = (closed, a, h ++ evs)
             /\ answered w h evs
             /\ loop_history fuel closed a evs).
Proof.
  intros. split.
  - intros width height Hsize Hw Hh.
    destruct (frame_renders w a h) as (evs & Hf & Hr).
    exists evs. split; [exact Hf|].
    apply (Hr width height); try assumption.
    revert Hf. unfold frame. unfold_monad. rewrite Hsize.
    destruct (Z.eqb width 0 || Z.eqb height 0);
      intros Hf; injection Hf as Hf; rewrite <- ?app_assoc in Hf;
      apply app_inv_head in Hf; subst evs; cbn; auto.
  - intros fuel. apply run_history.
Qed.

Lemma initialization_failure_is_fatal_witness :
  (exists a' evs,
      WindowApp_ctor no_session_world "Kholst" WIDTH HEIGHT
        WindowApp_default []
      = (tt, a', [] ++ evs)
      /\ fatal_to_initialization WindowApp_default a' evs
           ("Failed to initialize Slang compiler: "
              ++ "Failed to create Slang global session" ++ endl))
  /\ (exists a' evs,
         WindowApp_ctor missing_entry_world "Kholst" WIDTH HEIGHT
           WindowApp_default []
         = (tt, a', [] ++ evs)
         /\ fatal_to_initialization WindowApp_default a' evs
              ("Failed to compile shaders: "
                 ++ result_err sample_missing_entry ++ endl)).
Proof.
  split.
  - destruct (initialization_failure_is_fatal no_session_world "Kholst"
                WIDTH HEIGHT WindowApp_default []) as (H & _).
    refine (H (snd (fst (initialize no_session_world SLANG_SPIRV
                           SlangCompiler_new
                           (snd (at_initialize no_session_world "Kholst"
                                   WIDTH HEIGHT WindowApp_default [])))))
              _ _).
    vm_compute. reflexivity.
  - destruct (initialization_failure_is_fatal missing_entry_world "Kholst"
                WIDTH HEIGHT WindowApp_default []) as (_ & H & _).
    refine (H _ _ _ _ (result_err sample_missing_entry) _ _ _ _).
    + vm_compute. reflexivity.
    + vm_compute. reflexivity.
Defined.

Lemma render_loop_draws_cube_twice_witness :
  (exists evs,
      frame healthy_world sample_app [] = (tt, sample_app, [] ++ evs)
      /\ renders_cube_twice sample_app evs)
  /\ (exists closed evs,
         run healthy_world 5 sample_app [] = (closed, sample_app, [] ++ evs)
         /\ answered healthy_world [] evs
         /\ loop_history 5 closed sample_app evs).
Proof.
  destruct (render_loop_draws_cube_twice healthy_world sample_app [])
    as (Hframe & Hrun).
  split.
  - apply (Hframe 1680%Z 720%Z); [reflexivity | discriminate | discriminate].
  - exact (Hrun 5).
Defined.

(** *** Further properties of the application *)

Lemma compiler_calls_create_nothing (evs : list Event) :
  forallb is_compiler_call evs = true ->
  filter is_creation evs = [] /\ filter is_log evs = [].
Proof.
  induction evs as [|e evs IH]; [auto|].
  cbn [forallb]. intros H. apply andb_true_iff in H as [He Hevs].
  destruct (IH Hevs) as [IH1 IH2].
  destruct e; try discriminate He; cbn [filter is_creation is_log]; auto.
Qed.

Lemma compileVertexFragment_compiler_calls :
  forall w path ventry fentry outV outF err c h ok outV' outF' err' c' h',
    compileVertexFragment w path ventry fentry outV outF err c h
      = (ok, outV', outF', err', c', h') ->
    exists evs, h' = h ++ evs /\ forallb is_compiler_call evs = true.
Proof.
  intros * H.
  apply compileVertexFragment_cases in H
    as [(_ & _ & _ & _ & _ & _ & ->)
       | [(_ & HV & _) | (_ & errV & cV & hV & HV & HF)]].
  - exists []. now rewrite app_nil_r.
  - apply compileEntryPoint_more in HV as (evs & -> & _ & Hc & _). eauto.
  - apply compileEntryPoint_more in HV as (evsV & -> & _ & HcV & _).
    apply compileEntryPoint_more in HF as (evsF & -> & _ & HcF & _).
    exists (evsV ++ evsF). rewrite app_assoc, forallb_app, HcV, HcF. auto.
Qed.

Lemma initialize_compiler_calls :
  forall w target c h ok c' h',
    initialize w target c h = (ok, c', h') ->
    exists evs, h' = h ++ evs /\ forallb is_compiler_call evs = true.
Proof.
  intros * H. revert H. unfold initialize. run_cases.
  all: intros H; injection H as <- <- <-.
  all: rewrite <- ?app_assoc; cbn [app].
  all: try (exists []; now rewrite app_nil_r).
  all: eexists; split; reflexivity.
Qed.

Lemma initRender_compiled :
  forall w a h vs fs err c' h',
    compileVertexFragment w SLANG_CUBE_PATH "cubeVertex" "cubeFragment"
      [] [] "" (compiler a) h
    = (true, vs, fs, err, c', h') ->
    exists a' creations,
      initRender w a h = (tt, a', h' ++ creations)
      /\ render_objects_created vs fs (isWireframe a)
           (vert a') (frag a') (pipeline a') (wireframePipeline a')
           (filter is_creation creations)
      /\ filter is_log creations = []
      /\ compiler a' = c' /\ window a' = window a /\ ctx a' = ctx a
      /\ isWireframe a' = isWireframe a.
Proof.
  intros * H. unfold initRender, on_compiler, bind, this, emit, extern, modify.
  cbv beta zeta. rewrite H. cbv beta iota zeta. cbn [negb].
  rewrite <- !app_assoc. cbn [app].
  eexists. eexists. split; [reflexivity|].
  cbn [filter is_creation is_log vert frag pipeline wireframePipeline
       set_vert set_frag set_pipeline set_wireframePipeline set_compiler
       compiler window ctx isWireframe].
  split; [|auto 6].
  do 2 eexists. reflexivity.
Qed.

Lemma initRender_success :
  forall w a h vs fs err c' h',
    compileVertexFragment w SLANG_CUBE_PATH "cubeVertex" "cubeFragment"
      [] [] "" (compiler a) h
    = (true, vs, fs, err, c', h') ->
    exists a' evs,
      initRender w a h = (tt, a', h ++ evs)
      /\ render_objects_created vs fs (isWireframe a)
           (vert a') (frag a') (pipeline a') (wireframePipeline a')
           (filter is_creation evs)
      /\ filter is_log evs = []
      /\ compiler a' = c'.
Proof.
  intros * H.
  destruct (initRender_compiled _ _ _ H)
    as (a' & creations & Hr & Hobj & Hlog & Hc & _).
  apply compileVertexFragment_compiler_calls in H as (evsC & -> & Hcalls).
  apply compiler_calls_create_nothing in Hcalls as [Hcr Hlg].
  exists a', (evsC ++ creations). rewrite app_assoc.
  rewrite !filter_app, Hcr, Hlg, Hlog. auto.
Qed.

(** X17: when the shaders compile, [initRender] creates the vertex module,
    the fragment module, the solid pipeline and the wireframe pipeline, in
    that order and nothing else, both pipelines over the two modules just
    created, and keeps the four handles; the code handed to each module is,
    byte for byte and with its exact size, the blob the toolchain extracted
    for that stage; nothing is logged. *)
Theorem initRender_creates_render_objects :
  forall (w : World) (a : WindowApp) (h : History)
         vs fs err c' h',
    compileVertexFragment w SLANG_CUBE_PATH "cubeVertex" "cubeFragment"
      [] [] "" (compiler a) h
    = (true, vs, fs, err, c', h') ->
    exists a' evs dataV dataF,
      initRender w a h = (tt, a', h ++ evs)
      /\ render_objects_created vs fs (isWireframe a)
           (vert a') (frag a') (pipeline a') (wireframePipeline a')
           (filter is_creation evs)
      /\ filter is_log evs = []
      /\ (exists evsV evsF rest,
             evs = evsV ++ evsF ++ rest
             /\ code_extracted evsV dataV /\ code_extracted evsF dataF)
      /\ bytes_of_words vs = dataV /\ bytes_of_words fs = dataF
      /\ (Z.of_nat (List.length vs) * 4 = Z.of_nat (List.length dataV))%Z
      /\ (Z.of_nat (List.length fs) * 4 = Z.of_nat (List.length dataF))%Z.
Proof.
  intros * H.
  destruct (initRender_success _ _ _ H) as (a' & evs & Hr & Hobj & Hlog & _).
  destruct (initRender_compiled _ _ _ H) as (a'' & creations & Hr' & _).
  rewrite Hr in Hr'. injection Hr' as _ Hh.
  apply compileVertexFragment_cases in H
    as [(_ & Hno & _) | [(_ & _ & Hno & _) | (_ & errV & cV & hV & HV & HF)]];
    try discriminate Hno.
  apply compileEntryPoint_outcome in HV as (evsV & -> & HtV & _).
  apply compileEntryPoint_outcome in HF as (evsF & -> & HtF & _).
  destruct (HtV eq_refl) as (dataV & HxV & HmV & -> & _).
  destruct (HtF eq_refl) as (dataF & HxF & HmF & -> & _).
  rewrite <- !app_assoc in Hh. apply app_inv_head in Hh.
  destruct (words_of_bytes_whole (List.length dataV / 4) dataV)
    as [LV BV]; [now apply multiple_of_4|].
  destruct (words_of_bytes_whole (List.length dataF / 4) dataF)
    as [LF BF]; [now apply multiple_of_4|].
  exists a', evs, dataV, dataF.
  split; [exact Hr|]. split; [exact Hobj|]. split; [exact Hlog|].
  split; [exists evsV, evsF, creations; auto|].
  split; [exact BV|]. split; [exact BF|].
  rewrite LV, LF. apply multiple_of_4 in HmV, HmF. lia.
Qed.

Lemma WindowApp_ctor_outcome :
  forall w name width height a h,
    exists a' evs,
      WindowApp_ctor w name width height a h = (tt, a', h ++ evs)
      /\ ((filter is_creation evs = []
           /\ filter is_log evs <> []
           /\ vert a' = vert a /\ frag a' = frag a
           /\ pipeline a' = pipeline a
           /\ wireframePipeline a' = wireframePipeline a)
          \/ (filter is_log evs = []
              /\ isInitialized (compiler a') = true
              /\ exists vs fs,
                   render_objects_created vs fs (isWireframe a)
                     (vert a') (frag a') (pipeline a')
                     (wireframePipeline a')
                     (filter is_creation evs))).
Proof.
  intros. rewrite WindowApp_ctor_steps. cbv zeta.
  set (win := lvk_initWindow w h name width height).
  set (h1 := h ++ [EvInitWindow name width height win]).
  set (context := lvk_createVulkanContextWithSwapchain w h1 win width height).
  set (a2 := set_ctx context (set_window win a)).
  destruct (initialize w SLANG_SPIRV (compiler a2)
              (h1 ++ [EvCreateVulkanContext win width height context]))
    as [[ok c1] hi] eqn:Hinit.
  pose proof (initialize_outcome _ _ _ _ Hinit) as [Hi _].
  apply initialize_compiler_calls in Hinit as (evsI & -> & HcI).
  apply compiler_calls_create_nothing in HcI as [HcrI HlgI].
  destruct ok.
  - destruct (compileVertexFragment w SLANG_CUBE_PATH "cubeVertex"
                "cubeFragment" [] [] "" (compiler (set_compiler c1 a2))
                ((h1 ++ [EvCreateVulkanContext win width height context])
                   ++ evsI))
      as [[[[[okC vs] fs] err] c2] hc] eqn:Hcompile.
    destruct okC.
    + pose proof (compileVertexFragment_cases _ _ _ _ _ _ _ _ _ Hcompile)
        as Hcases.
      assert (Hi2 : isInitialized c2 = true).
      { unfold isInitialized in *. cbn [compiler set_compiler] in Hcases.
        destruct Hcases
          as [(_ & Hno & _)
             | [(_ & _ & Hno & _) | (_ & errV & cV & hV & HV & HF)]];
          try discriminate Hno.
        apply compileEntryPoint_frame in HV as (HiV & _).
        apply compileEntryPoint_frame in HF as (HiF & _). congruence. }
      destruct (initRender_success _ _ _ Hcompile)
        as (a' & evs & Hr & Hobj & Hlog & Hc).
      rewrite Hr. subst h1.
      exists a', ([EvInitWindow name width height win]
                    ++ [EvCreateVulkanContext win width height context]
                    ++ evsI ++ evs).
      split; [rewrite <- !app_assoc; reflexivity|]. right.
      rewrite !filter_app, HcrI, HlgI, Hlog. cbn [filter is_log is_creation app].
      split; [reflexivity|]. split; [congruence|].
      exists vs, fs. exact Hobj.
    + destruct (initRender_fatal _ _ _ Hcompile)
        as (a' & evs & Hr & Hlog & Hcr & Hfields).
      rewrite Hr. subst h1.
      exists a', ([EvInitWindow name width height win]
                    ++ [EvCreateVulkanContext win width height context]
                    ++ evsI ++ evs).
      split; [rewrite <- !app_assoc; reflexivity|]. left.
      rewrite !filter_app, HcrI, HlgI, Hcr. cbn [filter is_log is_creation app].
      split; [reflexivity|]. split; [|exact Hfields].
      intros Hnil. apply (in_nil (a := EvLog
        ("Failed to compile shaders: " ++ err ++ endl)%string)).
      rewrite <- Hnil. apply filter_In. auto.
  - subst h1. eexists. eexists.
    split; [rewrite <- !app_assoc; reflexivity|]. left.
    rewrite !filter_app, HcrI, HlgI. cbn. repeat split; auto. discriminate.
Qed.

(** X18: the constructor makes either none or all four of the creation
    calls: either it logged a failure, made no creation call and left the
    four holders as they were, or it logged nothing, the compiler is
    initialised, and it asked for the vertex module, the fragment module, the
    solid pipeline and the wireframe pipeline, in that order, and holds the
    four handles that came back.  Those handles are kept as returned, empty
    or not: the result of a creation is not tested. *)
Theorem WindowApp_ctor_creation_calls :
  forall (w : World) (name : string) (width height : Z)
         (a : WindowApp) (h : History),
    exists a' evs,
      WindowApp_ctor w name width height a h = (tt, a', h ++ evs)
      /\ ((filter is_creation evs = []
           /\ filter is_log evs <> []
           /\ vert a' = vert a /\ frag a' = frag a
           /\ pipeline a' = pipeline a
           /\ wireframePipeline a' = wireframePipeline a)
          \/ (filter is_log evs = []
              /\ isInitialized (compiler a') = true
              /\ exists vs fs,
                   render_objects_created vs fs (isWireframe a)
                     (vert a') (frag a') (pipeline a')
                     (wireframePipeline a')
                     (filter is_creation evs))).
Proof. intros. apply WindowApp_ctor_outcome. Qed.

Lemma count_calls_app (f : Event -> bool) (evs1 evs2 : list Event) :
  count_calls f (evs1 ++ evs2) = count_calls f evs1 + count_calls f evs2.
Proof. unfold count_calls. now rewrite filter_app, length_app. Qed.

Lemma frames_balanced_app (evs1 evs2 : list Event) :
  frames_balanced evs1 -> frames_balanced evs2 ->
  frames_balanced (evs1 ++ evs2).
Proof.
  unfold frames_balanced. cbv zeta. rewrite !count_calls_app. lia.
Qed.

Lemma only_renders_app (evs1 evs2 : list Event) :
  only_renders evs1 -> only_renders evs2 -> only_renders (evs1 ++ evs2).
Proof.
  unfold only_renders. rewrite !filter_app.
  intros (-> & -> & ->) (-> & -> & ->). auto.
Qed.

Lemma frame_balanced :
  forall w a h,
    exists evs,
      frame w a h = (tt, a, h ++ evs)
      /\ frames_balanced evs /\ only_renders evs.
Proof.
  intros. unfold frame. run_cases.
  all: rewrite <- ?app_assoc; cbn [app].
  all: eexists; (split; [reflexivity|]).
  all: unfold frames_balanced, only_renders, count_calls; cbv zeta.
  all: cbn [filter is_nonzero_size is_time_sample is_acquire
            is_begin_rendering is_end_rendering is_submit is_bind is_draw
            is_push_label is_pop_label is_compiler_call is_creation is_log].
  all: rewrite Heqb; cbn; auto 12.
Qed.

Lemma run_balanced :
  forall w fuel a h,
    exists closed evs,
      run w fuel a h = (closed, a, h ++ evs)
      /\ frames_balanced evs /\ only_renders evs.
Proof.
  intros w fuel. induction fuel as [|fuel IH]; intros a h.
  - exists false, []. cbn [run]. unfold ret. rewrite app_nil_r.
    split; [reflexivity|]. split; [|repeat split].
    unfold frames_balanced, count_calls. cbn. auto 12.
  - cbn [run]. unfold bind, extern, ret. cbv beta zeta.
    destruct (glfwWindowShouldClose w h) eqn:Hclose.
    + exists true, [EvWindowShouldClose true].
      split; [reflexivity|]. split; [|repeat split].
      unfold frames_balanced, count_calls. cbn. auto 12.
    + destruct (frame_balanced w a (h ++ [EvWindowShouldClose false]))
        as (fevs & Hf & Hb & Ho).
      rewrite Hf.
      destruct (IH a ((h ++ [EvWindowShouldClose false]) ++ fevs))
        as (closed & evs & Hrun & Hbr & Hor).
      rewrite Hrun.
      exists closed, ([EvWindowShouldClose false] ++ fevs ++ evs).
      split; [rewrite <- !app_assoc; reflexivity|].
      split.
      * apply frames_balanced_app; [|now apply frames_balanced_app].
        unfold frames_balanced, count_calls. cbn. auto 12.
      * apply only_renders_app; [|now apply only_renders_app].
        repeat split.
Qed.

(** X19: however long the render loop runs, its calls are balanced: with
    [n] the number of iterations that saw a framebuffer of non-zero size, it
    read the clock, acquired a command buffer, began rendering, ended
    rendering and submitted exactly [n] times each, and bound a pipeline,
    drew, pushed and popped a debug label exactly [2 * n] times each; an
    iteration that sees a zero-sized framebuffer adds none of these. *)
Theorem run_frames_balanced :
  forall (w : World) (fuel : nat) (a : WindowApp) (h : History),
    exists closed evs,
      run w fuel a h = (closed, a, h ++ evs) /\ frames_balanced evs.
Proof.
  intros. destruct (run_balanced w fuel a h) as (closed & evs & Hr & Hb & _).
  eauto.
Qed.

(** X20: the render loop only renders: however long it runs, it makes no
    call of the compiler adapter (no shader is compiled again), creates no
    shader module or pipeline, logs nothing, and leaves the application
    object as it was. *)
Theorem run_only_renders :
  forall (w : World) (fuel : nat) (a : WindowApp) (h : History),
    exists closed evs,
      run w fuel a h = (closed, a, h ++ evs) /\ only_renders evs.
Proof.
  intros. destruct (run_balanced w fuel a h) as (closed & evs & Hr & _ & Ho).
  eauto.
Qed.

(** X22: a constructor that logged a failure on a fresh application leaves
    the two pipeline holders empty, and the render loop does not look at
    that: each frame with a non-zero framebuffer still binds the solid and
    the wireframe pipeline, both null, and draws 36 vertices after each. *)
Theorem failed_ctor_frames_bind_null :
  forall (w : World) (name : string) (width height : Z) (h : History)
         a' evs (h2 : History) fbWidth fbHeight,
    WindowApp_ctor w name width height WindowApp_default h
      = (tt, a', h ++ evs) ->
    filter is_log evs <> [] ->
    glfwGetFramebufferSize w (h2 ++ [EvPollEvents]) = (fbWidth, fbHeight) ->
    fbWidth <> 0%Z -> fbHeight <> 0%Z ->
    exists fevs t p,
      frame w a' h2 = (tt, a', h2 ++ fevs)
      /\ filter is_draw_command fevs
         = [EvBindRenderPipeline nullptr;
            EvPushConstants (MMul p (rotation t));
            EvDraw 36;
            EvBindRenderPipeline nullptr;
            EvPushConstants (MMul p (rotation t));
            EvDraw 36].
Proof.
  intros * Hctor Hlog Hsize Hw Hh.
  destruct (WindowApp_ctor_outcome w name width height WindowApp_default h)
    as (a'' & evs' & Hc & Hcase).
  rewrite Hctor in Hc. injection Hc as Ha He.
  apply app_inv_head in He. subst a'' evs'.
  destruct Hcase as [(_ & _ & _ & _ & Hp & Hq) | (Hnolog & _)];
    [|contradiction].
  cbn in Hp, Hq.
  destruct (frame_renders w a' h2) as (fevs & Hf & Hr).
  assert (Hin : In (EvGetFramebufferSize (fbWidth, fbHeight)) fevs).
  { revert Hf. unfold frame. unfold_monad. rewrite Hsize.
    destruct (Z.eqb fbWidth 0 || Z.eqb fbHeight 0);
      intros Hf; injection Hf as Hf; rewrite <- ?app_assoc in Hf;
      apply app_inv_head in Hf; subst fevs; cbn; auto. }
  destruct (Hr fbWidth fbHeight Hin Hw Hh) as (t & p & _ & Hd).
  exists fevs, t, p. split; [exact Hf|]. rewrite Hd, Hp, Hq. reflexivity.
Qed.

Lemma initRender_creates_render_objects_witness :
  exists a' evs dataV dataF,
    initRender healthy_world
      (set_compiler ready_compiler WindowApp_default) []
    = (tt, a', [] ++ evs)
    /\ render_objects_created
         (snd (fst (fst (fst (fst sample_compile_both)))))
         (snd (fst (fst (fst sample_compile_both))))
         0%Z (vert a') (frag a') (pipeline a') (wireframePipeline a')
         (filter is_creation evs)
    /\ filter is_log evs = []
    /\ (exists evsV evsF rest,
           evs = evsV ++ evsF ++ rest
           /\ code_extracted evsV dataV /\ code_extracted evsF dataF)
    /\ bytes_of_words (snd (fst (fst (fst (fst sample_compile_both)))))
       = dataV
    /\ bytes_of_words (snd (fst (fst (fst sample_compile_both)))) = dataF
    /\ (Z.of_nat
          (List.length (snd (fst (fst (fst (fst sample_compile_both)))))) * 4
        = Z.of_nat (List.length dataV))%Z
    /\ (Z.of_nat (List.length (snd (fst (fst (fst sample_compile_both))))) * 4
        = Z.of_nat (List.length dataF))%Z.
Proof.
  apply (initRender_creates_render_objects healthy_world
           (set_compiler ready_compiler WindowApp_default) []
           (err := snd (fst (fst sample_compile_both)))
           (c' := snd (fst sample_compile_both))
           (h' := snd sample_compile_both)).
  reflexivity.
Defined.

Lemma failed_ctor_frames_bind_null_witness :
  exists fevs t p,
    frame missing_entry_world (snd (fst (sample_ctor missing_entry_world))) []
    = (tt, snd (fst (sample_ctor missing_entry_world)), [] ++ fevs)
    /\ filter is_draw_command fevs
       = [EvBindRenderPipeline nullptr;
          EvPushConstants (MMul p (rotation t));
          EvDraw 36;
          EvBindRenderPipeline nullptr;
          EvPushConstants (MMul p (rotation t));
          EvDraw 36].
Proof.
  apply (@failed_ctor_frames_bind_null missing_entry_world "Kholst" WIDTH
           HEIGHT [] (snd (fst (sample_ctor missing_entry_world)))
           (snd (sample_ctor missing_entry_world)) [] 1680%Z 720%Z).
  - reflexivity.
  - vm_compute. discriminate.
  - reflexivity.
  - discriminate.
  - discriminate.
Defined.
